(** * WhatsApp / Gemini relay: webhook handling, session registry, outbound sender

    A shallow embedding of the request handling code of the relay
    ([handlers/webhook_handler.py], [services/gemini_client.py],
    [services/twilio_service.py], [app.py]) and the properties of it that the
    design document states.

    Conventions of the embedding.
    - A Python [str] is a Rocq [string]; a character stands for one code point
      in the range 0..255.
      String constants are written as in the source.
    - [Optional[str]] is [option string]; [None] is [None].
    - A [dict] is a [gmap]; the form fields of one delivery are text
      ([x-www-form-urlencoded], as the docstring of [handle_webhook] says).
    - A call that may raise returns a [res]: [Ret v] or [Raise e].  [exn]
      ranges over the subclasses of [Exception] the code raises or catches.
    - The vendor SDKs (Gemini, Twilio) and the prompt file are collaborators
      outside the repository: they are a record of oracles whose answer may
      depend on every vendor call made so far, and every call is appended to
      a log kept in the state. *)

From Stdlib Require Import ZArith Ascii String List Bool Lia.
From stdpp Require Import gmap strings list pretty.

Open Scope string_scope.
Open Scope Z_scope.

(** ** Python built-ins used by the code *)

Module Py.

(** [bool(s)] of a string, and of an optional string. *)
Definition truthy (s : string) : bool :=
  match s with
  | EmptyString => false
  | String _ _ => true
  end.

Definition truthy_opt (o : option string) : bool :=
  match o with
  | None => false
  | Some s => truthy s
  end.

(** [a or b] on strings. *)
Definition str_or (a b : string) : string :=
  if truthy a then a else b.

(** [s.startswith(p)]. *)
Definition startswith (s p : string) : bool := String.prefix p s.

(** [s.replace(old, new)] for a non-empty [old]: every occurrence, left to
    right, without overlap.  [skip] counts the characters of a matched
    occurrence that are still to be dropped. *)
Fixpoint replace_from (old new : string) (skip : nat) (s : string) : string :=
  match s with
  | EmptyString => EmptyString
  | String c s' =>
      match skip with
      | S k => replace_from old new k s'
      | O =>
          if String.prefix old s
          then new +:+ replace_from old new (Nat.pred (String.length old)) s'
          else String c (replace_from old new O s')
      end
  end.

Definition replace (s old new : string) : string := replace_from old new O s.

(** [s.lstrip(c)] for a one-character set. *)
Fixpoint lstrip (c : ascii) (s : string) : string :=
  match s with
  | EmptyString => EmptyString
  | String a s' => if Ascii.eqb a c then lstrip c s' else s
  end.

(** Exceptions: the subclasses of [Exception] that occur in the code. *)
Inductive exn : Type :=
| KeyError (msg : string)
| ValueError (msg : string)
| TypeError (msg : string)
| HTTPException (status_code : Z) (detail : string)
| TwilioRestException (status : Z) (msg : string)
| TwilioMessageError (msg : string)
| OtherException (name : string) (msg : string).

Inductive exn_class : Type :=
| CKeyError | CValueError | CTypeError | CHTTPException
| CTwilioRestException | CTwilioMessageError | CException.

Definition class_of (e : exn) : exn_class :=
  match e with
  | KeyError _ => CKeyError
  | ValueError _ => CValueError
  | TypeError _ => CTypeError
  | HTTPException _ _ => CHTTPException
  | TwilioRestException _ _ => CTwilioRestException
  | TwilioMessageError _ => CTwilioMessageError
  | OtherException _ _ => CException
  end.

Definition exn_class_eqb (a b : exn_class) : bool :=
  match a, b with
  | CKeyError, CKeyError | CValueError, CValueError | CTypeError, CTypeError
  | CHTTPException, CHTTPException
  | CTwilioRestException, CTwilioRestException
  | CTwilioMessageError, CTwilioMessageError
  | CException, CException => true
  | _, _ => false
  end.

(** [isinstance(e, cls)]: every class is a subclass of [Exception]. *)
Definition isinstance (e : exn) (cls : exn_class) : bool :=
  match cls with
  | CException => true
  | _ => exn_class_eqb (class_of e) cls
  end.

Definition isinstance_any (e : exn) (clss : list exn_class) : bool :=
  existsb (isinstance e) clss.

(** [str(e)], as the f-strings of the handlers render it. *)
Definition str_exn (e : exn) : string :=
  match e with
  | KeyError m | ValueError m | TypeError m | TwilioMessageError m => m
  | HTTPException c d => pretty c +:+ ": " +:+ d
  | TwilioRestException st m => "HTTP " +:+ pretty st +:+ " error: " +:+ m
  | OtherException _ m => m
  end.

(** Result of a call that may raise. *)
Inductive res (A : Type) : Type :=
| Ret (a : A)
| Raise (e : exn).
Arguments Ret {A} a.
Arguments Raise {A} e.

Definition bind {A B : Type} (m : res A) (k : A -> res B) : res B :=
  match m with
  | Ret a => k a
  | Raise e => Raise e
  end.

(** [try: body] followed by [except] clauses, tried in order. *)
Fixpoint select_handler {A : Type} (e : exn)
    (clauses : list (list exn_class * (exn -> A))) : option (exn -> A) :=
  match clauses with
  | [] => None
  | (clss, h) :: rest => if isinstance_any e clss then Some h else select_handler e rest
  end.

Definition try_except {A : Type} (body : res A)
    (clauses : list (list exn_class * (exn -> res A))) : res A :=
  match body with
  | Ret a => Ret a
  | Raise e =>
      match select_handler e clauses with
      | Some h => h e
      | None => Raise e
      end
  end.

(** *** [int(s)] for a [str] argument, base 10

    White space around the literal, an optional sign, decimal digits with
    single underscores between digits.  Among the code points 0..255 the
    white space of [int] is tab, line feed, vertical tab, form feed,
    carriage return, space, and the two non-ASCII spaces U+0085 and U+00A0;
    no code point of that range besides 0..9 is a decimal digit.  A literal
    of more than [int_max_str_digits] digits is refused. *)

Definition int_max_str_digits : nat := 4300.

Definition is_space (c : ascii) : bool :=
  let n := nat_of_ascii c in
  ((9 <=? n) && (n <=? 13) || (n =? 32) || (n =? 133) || (n =? 160))%nat.

Definition digit_value (c : ascii) : option Z :=
  let n := nat_of_ascii c in
  if ((48 <=? n) && (n <=? 57))%nat then Some (Z.of_nat (n - 48)) else None.

Fixpoint skip_spaces (s : string) : string :=
  match s with
  | EmptyString => EmptyString
  | String c s' => if is_space c then skip_spaces s' else s
  end.

(** Scans digits and underscores; [prev_us] tells that the previous
    character was an underscore.  Returns the value, the number of digits
    and the rest, or [None] on a doubled or trailing underscore. *)
Fixpoint scan_digits (prev_us : bool) (acc : Z) (ndigits : nat) (s : string)
    : option (Z * nat * string) :=
  match s with
  | EmptyString => if prev_us then None else Some (acc, ndigits, EmptyString)
  | String c s' =>
      if Ascii.eqb c "_" then
        if prev_us then None else scan_digits true acc ndigits s'
      else
        match digit_value c with
        | Some d => scan_digits false (10 * acc + d) (S ndigits) s'
        | None => if prev_us then None else Some (acc, ndigits, s)
        end
  end.

(** [repr(s)] of a string, on the code points 0..255: single quotes unless
    the string has a single quote and no double quote; the quote in use and
    the backslash are escaped with a backslash; tab, line feed and carriage
    return are written with their letter; the other code points that are not
    printable (below 32, 127 to 160, and 173) are written as a backslash, an x
    and two lower-case hexadecimal digits. *)
Definition backslash : ascii := ascii_of_nat 92.
Definition single_quote : ascii := ascii_of_nat 39.
Definition double_quote : ascii := ascii_of_nat 34.

Fixpoint contains_char (c : ascii) (s : string) : bool :=
  match s with
  | EmptyString => false
  | String a s' => Ascii.eqb a c || contains_char c s'
  end.

Definition hex_digit (n : nat) : ascii :=
  if (n <? 10)%nat then ascii_of_nat (48 + n) else ascii_of_nat (87 + n).

Definition hex_escape (c : ascii) : string :=
  let n := nat_of_ascii c in
  String backslash
    (String "x" (String (hex_digit (n / 16)) (String (hex_digit (n mod 16)) EmptyString))).

Definition is_printable (c : ascii) : bool :=
  let n := nat_of_ascii c in
  ((32 <=? n) && (n <=? 126) || (161 <=? n) && negb (n =? 173))%nat.

Definition repr_char (quote c : ascii) : string :=
  if Ascii.eqb c quote || Ascii.eqb c backslash then
    String backslash (String c EmptyString)
  else if Ascii.eqb c (ascii_of_nat 9) then String backslash "t"
  else if Ascii.eqb c (ascii_of_nat 10) then String backslash "n"
  else if Ascii.eqb c (ascii_of_nat 13) then String backslash "r"
  else if is_printable c then String c EmptyString
  else hex_escape c.

Fixpoint repr_body (quote : ascii) (s : string) : string :=
  match s with
  | EmptyString => String quote EmptyString
  | String c s' => repr_char quote c +:+ repr_body quote s'
  end.

Definition repr (s : string) : string :=
  let quote :=
    if contains_char single_quote s && negb (contains_char double_quote s)
    then double_quote else single_quote in
  String quote (repr_body quote s).

(** The [ValueError] of [int]: the literal is shown by [repr], cut at 200
    characters. *)
Definition invalid_literal (s : string) : exn :=
  ValueError ("invalid literal for int() with base 10: "
              +:+ String.substring 0 200 (repr s)).

(** The optional sign in front of the digits. *)
Definition sign_negative (s : string) : bool :=
  match s with
  | String c _ => Ascii.eqb c "-"
  | EmptyString => false
  end.

Definition skip_sign (s : string) : string :=
  match s with
  | String c r => if Ascii.eqb c "+" || Ascii.eqb c "-" then r else s
  | EmptyString => s
  end.

Definition int (s : string) : res Z :=
  let s1 := skip_spaces s in
  let negative := sign_negative s1 in
  let s2 := skip_sign s1 in
  if startswith s2 "_" then Raise (invalid_literal s)
  else
    match scan_digits false 0 O s2 with
    | None => Raise (invalid_literal s)
    | Some (v, n, rest) =>
        if (n =? 0)%nat then Raise (invalid_literal s)
        else if (int_max_str_digits <? n)%nat then
          Raise (ValueError
            ("Exceeds the limit (4300 digits) for integer string conversion: value has "
             +:+ pretty n
             +:+ " digits; use sys.set_int_max_str_digits() to increase the limit"))
        else
          match skip_spaces rest with
          | EmptyString => Ret (if negative then - v else v)
          | String _ _ => Raise (invalid_literal s)
          end
    end.

(** [range(n)] as the list of its indices. *)
Definition range (n : Z) : list nat := seq 0 (Z.to_nat n).

End Py.

Export Py.


(** ** Configuration ([config.py]) *)

(** The class attributes of [Config], read from the environment when the
    module is imported ([os.environ.get] gives [None] for an unset name). *)
Record Config : Type := {
  VERIFY_TOKEN : option string;
  GEMINI_API_KEY : option string;
  TWILIO_ACCOUNT_SID : option string;
  TWILIO_AUTH_TOKEN : option string;
  TWILIO_WHATSAPP_NUMBER : option string;
  GEMINI_MODEL : string
}.

(** ** Webhook handlers ([handlers/webhook_handler.py]) *)

Module WebhookHandler.

(** The part of a FastAPI [Request] that [verify_webhook] reads.  Header
    names arrive in lower case; [headers.get] lowers the key it is asked
    for and returns the first match.  [query_params.get] returns the last
    value given for the key.  [body] is the raw request body. *)
Record Request : Type := {
  headers : list (string * string);
  query_params : list (string * string);
  body : string
}.

Definition lower_ascii (c : ascii) : ascii :=
  let n := nat_of_ascii c in
  if ((65 <=? n) && (n <=? 90))%nat then ascii_of_nat (n + 32) else c.

Fixpoint lower (s : string) : string :=
  match s with
  | EmptyString => EmptyString
  | String c s' => String (lower_ascii c) (lower s')
  end.

Fixpoint first_value (key : string) (l : list (string * string)) : option string :=
  match l with
  | [] => None
  | (k, v) :: l' => if String.eqb k key then Some v else first_value key l'
  end.

Fixpoint last_value (key : string) (l : list (string * string)) : option string :=
  match l with
  | [] => None
  | (k, v) :: l' =>
      match last_value key l' with
      | Some v' => Some v'
      | None => if String.eqb k key then Some v else None
      end
  end.

Definition headers_get (r : Request) (key : string) : option string :=
  first_value (lower key) (headers r).

Definition query_params_get (r : Request) (key : string) : option string :=
  last_value key (query_params r).

Definition HTTP_403_FORBIDDEN : Z := 403.

Definition option_string_eqb (a b : option string) : bool :=
  match a, b with
  | None, None => true
  | Some x, Some y => String.eqb x y
  | _, _ => false
  end.

(** [verify_webhook(request)]. *)
Definition verify_webhook (cfg : Config) (request : Request) : res string :=
  let x_twilio_signature := headers_get request "X-Twilio-Signature" in
  let token_param := query_params_get request "hub.verify_token" in
  if truthy_opt x_twilio_signature then
    Ret "ok"
  else if option_string_eqb token_param (VERIFY_TOKEN cfg) then
    let challenge := default "" (query_params_get request "hub.challenge") in
    Ret (str_or challenge "ok")
  else
    Raise (HTTPException HTTP_403_FORBIDDEN
             "Token de verificação inválido ou ausente").

(** The dictionaries [process_webhook] returns. *)
Record RawMessage : Type := {
  raw_from : string;
  raw_to : string;
  raw_type : string;
  raw_text : option string;      (* [{"body": message_body}] or [None] *)
  raw_message_sid : string
}.

Record Message : Type := {
  sender_id : string;
  message_type : string;
  timestamp : string;
  message_sid : string;
  account_sid : option string;
  message_body : string;
  media_urls : list string;
  raw_message : RawMessage
}.

Inductive WebhookData : Type :=
| Ignored (type_ : string)       (* [{"status": "ignored", "type": ...}] *)
| Error (detail : string)        (* [{"status": "error", "detail": ...}] *)
| Success (m : Message).         (* [{"status": "success", ...}] *)

(** [webhook_data.get("status")]. *)
Definition status (w : WebhookData) : string :=
  match w with
  | Ignored _ => "ignored"
  | Error _ => "error"
  | Success _ => "success"
  end.

(** Lines 79-83: the prefix test and the replacement. *)
Definition strip_whatsapp (number : string) : string :=
  if startswith number "whatsapp:" then replace number "whatsapp:" "" else number.

(** Lines 86-89: [int] with the fallback to zero. *)
Definition num_media_of (num_media_str : string) : res Z :=
  try_except (Py.int num_media_str) [([CValueError; CTypeError], fun _ => Ret 0)].

(** Lines 99-102: one round of the loop over [range(num_media)]. *)
Definition media_step (data : gmap string string) (media_urls : list string)
    (i : nat) : list string :=
  match data !! ("MediaUrl" +:+ pretty i) with
  | Some media_url => if truthy media_url then media_urls ++ [media_url] else media_urls
  | None => media_urls
  end.

Definition collect_media (data : gmap string string) (num_media : Z) : list string :=
  if 0 <? num_media then fold_left (media_step data) (range num_media) [] else [].

(** The body of the outer [try]. *)
Definition process_webhook_body (data : gmap string string) : res WebhookData :=
  let message_sid := data !! "MessageSid" in
  let account_sid := data !! "AccountSid" in
  let from_number := default "" (data !! "From") in
  let to_number := default "" (data !! "To") in
  let message_body := default "" (data !! "Body") in
  let num_media_str := default "0" (data !! "NumMedia") in
  let timestamp := default "" (data !! "Timestamp") in
  let from_number := strip_whatsapp from_number in
  let to_number := strip_whatsapp to_number in
  Py.bind (num_media_of num_media_str) (fun num_media =>
  if negb (truthy_opt message_sid) || negb (truthy from_number) then
    Ret (Ignored "invalid_data")
  else
    let media_urls := collect_media data num_media in
    let message_type := if negb (bool_decide (media_urls = [])) then "media" else "text" in
    Ret (Success {|
      sender_id := from_number;
      message_type := message_type;
      timestamp := timestamp;
      message_sid := default "" message_sid;
      account_sid := account_sid;
      message_body := message_body;
      media_urls := media_urls;
      raw_message := {|
        raw_from := from_number;
        raw_to := to_number;
        raw_type := message_type;
        raw_text := if String.eqb message_type "text" then Some message_body else None;
        raw_message_sid := default "" message_sid
      |}
    |})).

(** [process_webhook(data)]. *)
Definition process_webhook (data : gmap string string) : res WebhookData :=
  try_except (process_webhook_body data)
    [([CKeyError; CValueError; CTypeError], fun e => Ret (Error (str_exn e)))].

(** The test of line 92, on the dictionary: an id the validation asks for
    is missing. *)
Definition ids_missing (data : gmap string string) : bool :=
  negb (truthy_opt (data !! "MessageSid"))
  || negb (truthy (strip_whatsapp (default "" (data !! "From")))).

End WebhookHandler.

(** ** The vendors and the state of the process *)

Module Vendor.

(** One call to a collaborator outside the repository. *)
Inductive VendorCall : Type :=
| GenaiClient (api_key : option string)                 (* [genai.Client(api_key=...)] *)
| ReadPromptFile                                        (* the file read of [load_prompt_template] *)
| ChatsCreate (model system_instruction : string)       (* [client.chats.create(...)] *)
| ChatSendMessage (handle : nat) (message : string)     (* [chat.send_message(message)] *)
| TwilioRestClient (account_sid auth_token : string)    (* [twilio.rest.Client(sid, token)] *)
| MessagesCreate (body from_ to : string) (media_url : option string).

(** What the vendors answer.  Every answer may depend on the calls made
    before it. *)
Record Vendors : Type := {
  genai_client : list VendorCall -> option string -> res unit;
  read_prompt_file : list VendorCall -> option string;
  chats_create : list VendorCall -> string -> string -> res nat;
  chat_send_message : list VendorCall -> nat -> string -> res (option string);
  twilio_rest_client : list VendorCall -> string -> string -> res unit;
  messages_create :
    list VendorCall -> string -> string -> string -> option string ->
    res (string * string)                               (* [message.sid], [message.status] *)
}.

(** The chat object [client.chats.create] returns: the configuration it
    was opened with and the handle of the remote dialogue. *)
Record Chat : Type := {
  chat_model : string;
  chat_system_instruction : string;
  chat_handle : nat
}.

(** An instance of [GeminiChatSession]; [oid] is the identity of the
    object. *)
Record GeminiChatSession : Type := {
  oid : nat;
  user_id : string;
  client_api_key : option string;
  chat : Chat
}.

(** The mutable state of the process: the dictionary of the one
    [ChatSessionManager], the vendor calls made so far (oldest first) and
    the next free object identity. *)
Record State : Type := {
  sessions : gmap string GeminiChatSession;
  log : list VendorCall;
  next_oid : nat
}.

Definition set_sessions (m : gmap string GeminiChatSession) (st : State) : State :=
  {| sessions := m; log := log st; next_oid := next_oid st |}.

Definition add_call (c : VendorCall) (st : State) : State :=
  {| sessions := sessions st; log := log st ++ [c]; next_oid := next_oid st |}.

Definition bump_oid (st : State) : State :=
  {| sessions := sessions st; log := log st; next_oid := S (next_oid st) |}.

(** [ChatSessionManager.__init__]: an empty dictionary. *)
Definition initial_state : State :=
  {| sessions := ∅; log := []; next_oid := O |}.

(** Computations over the state that may raise; the state survives a
    raise. *)
Definition M (A : Type) : Type := State -> res A * State.

Definition ret {A : Type} (a : A) : M A := fun st => (Ret a, st).

Definition raise {A : Type} (e : exn) : M A := fun st => (Raise e, st).

Definition lift {A : Type} (r : res A) : M A := fun st => (r, st).

Definition bind {A B : Type} (m : M A) (k : A -> M B) : M B :=
  fun st =>
    match m st with
    | (Ret a, st') => k a st'
    | (Raise e, st') => (Raise e, st')
    end.

(** [try: body] followed by [except] clauses, tried in order. *)
Definition catch {A : Type} (body : M A)
    (clauses : list (list exn_class * (exn -> M A))) : M A :=
  fun st =>
    match body st with
    | (Ret a, st') => (Ret a, st')
    | (Raise e, st') =>
        match select_handler e clauses with
        | Some h => h e st'
        | None => (Raise e, st')
        end
    end.

Definition get_state : M State := fun st => (Ret st, st).

Definition put_sessions (m : gmap string GeminiChatSession) : M unit :=
  fun st => (Ret tt, set_sessions m st).

Definition new_oid : M nat := fun st => (Ret (next_oid st), bump_oid st).

(** A vendor call: answered from the calls made so far, then logged. *)
Definition call {A : Type} (c : VendorCall) (answer : list VendorCall -> res A) : M A :=
  fun st => (answer (log st), add_call c st).

End Vendor.

Export Vendor.

Notation "x <- m ;; k" := (Vendor.bind m (fun x => k))
  (at level 100, m at next level, right associativity, only parsing).

(** Unfolds the operations of [M]. *)
Ltac unfold_M :=
  unfold Vendor.bind, Vendor.ret, Vendor.raise, Vendor.lift, Vendor.catch,
    Vendor.get_state, Vendor.put_sessions, Vendor.new_oid, Vendor.call in *.

(** ** Gemini sessions and their registry ([services/gemini_client.py]) *)

Module GeminiClient.
Section WithVendors.
Context (cfg : Config) (v : Vendors).

Definition default_system_instruction : string :=
  "Você é um atendente comercial da CryptoLock, vendedor de soluções de segurança de pipeline CI/CD. "
  +:+ "Mantenha as respostas profissionais, informativas e focadas nos benefícios do produto. "
  +:+ "Responda no idioma do usuário (Português ou Inglês).".

(** [load_prompt_template()]: the instruction built from the prompt file,
    or [None] when the file is absent or unreadable; it never raises. *)
Definition load_prompt_template : M (option string) :=
  call ReadPromptFile (fun l => Ret (read_prompt_file v l)).

(** [GeminiChatSession.__init__(user_id, system_instruction)]. *)
Definition GeminiChatSession_init (user_id : string)
    (system_instruction : option string) : M GeminiChatSession :=
  self <- new_oid ;;
  _ <- call (GenaiClient (GEMINI_API_KEY cfg))
         (fun l => genai_client v l (GEMINI_API_KEY cfg)) ;;
  system_instruction <-
    match system_instruction with
    | None => load_prompt_template
    | Some _ => ret system_instruction
    end ;;
  let system_instruction := default default_system_instruction system_instruction in
  handle <- call (ChatsCreate (GEMINI_MODEL cfg) system_instruction)
              (fun l => chats_create v l (GEMINI_MODEL cfg) system_instruction) ;;
  ret {| oid := self;
         user_id := user_id;
         client_api_key := GEMINI_API_KEY cfg;
         chat := {| chat_model := GEMINI_MODEL cfg;
                    chat_system_instruction := system_instruction;
                    chat_handle := handle |} |}.

(** [GeminiChatSession.send_message(message)]: [response.text or ""];
    a failure is logged and raised again. *)
Definition send_message (self : GeminiChatSession) (message : string) : M string :=
  catch
    (text <- call (ChatSendMessage (chat_handle (chat self)) message)
               (fun l => chat_send_message v l (chat_handle (chat self)) message) ;;
     ret (if truthy_opt text then default "" text else ""))
    [([CException], fun e => raise e)].

(** [ChatSessionManager.get_or_create_session(user_id, system_instruction)]. *)
Definition get_or_create_session (user_id : string)
    (system_instruction : option string) : M GeminiChatSession :=
  st <- get_state ;;
  _ <- (if bool_decide (user_id ∉ dom (sessions st)) then
          s <- GeminiChatSession_init user_id system_instruction ;;
          st' <- get_state ;;
          put_sessions (<[user_id := s]> (sessions st'))
        else ret tt) ;;
  st <- get_state ;;
  match sessions st !! user_id with
  | Some s => ret s
  | None => raise (KeyError user_id)
  end.

(** [ChatSessionManager.get_session(user_id)]. *)
Definition get_session (user_id : string) : M (option GeminiChatSession) :=
  st <- get_state ;;
  ret (sessions st !! user_id).

(** [ChatSessionManager.delete_session(user_id)]. *)
Definition delete_session (user_id : string) : M bool :=
  st <- get_state ;;
  if bool_decide (user_id ∈ dom (sessions st)) then
    _ <- put_sessions (delete user_id (sessions st)) ;;
    ret true
  else ret false.

(** [ChatSessionManager.clear_all_sessions()]. *)
Definition clear_all_sessions : M unit :=
  put_sessions ∅.

(** The operations of the registry, to speak of sequences of them. *)
Inductive Op : Type :=
| OpGetOrCreate (user_id : string) (system_instruction : option string)
| OpGet (user_id : string)
| OpDelete (user_id : string)
| OpClear.

Definition run_op (o : Op) (st : State) : State :=
  match o with
  | OpGetOrCreate u i => snd (get_or_create_session u i st)
  | OpGet u => snd (get_session u st)
  | OpDelete u => snd (delete_session u st)
  | OpClear => snd (clear_all_sessions st)
  end.

Definition run_ops (ops : list Op) (st : State) : State :=
  fold_left (fun st o => run_op o st) ops st.

Definition removes (o : Op) : bool :=
  match o with
  | OpDelete _ | OpClear => true
  | OpGetOrCreate _ _ | OpGet _ => false
  end.

End WithVendors.

(** Every stored session sits under the user id it was created for. *)
Definition keyed_by_user (m : gmap string GeminiChatSession) : Prop :=
  forall u s, m !! u = Some s -> user_id s = u.

(** The sessions the registry holds for one user id. *)
Definition sessions_of (uid : string) (m : gmap string GeminiChatSession)
    : list GeminiChatSession :=
  filter (fun s => user_id s = uid) (map snd (map_to_list m)).

End GeminiClient.

(** ** Outbound sender ([services/twilio_service.py]) *)

Module TwilioService.

Record TwilioWhatsAppClient : Type := {
  account_sid : string;
  auth_token : string;
  twilio_whatsapp_number : string
}.

(** The dictionary [send_text_message] returns. *)
Record SendResult : Type := {
  success : bool;
  message_sid : string;
  status : string;
  to : string;
  from_ : string
}.

(** [a or b] on optional strings. *)
Definition opt_or (a b : option string) : option string :=
  if truthy_opt a then a else b.

(** Lines 79-82 of [send_text_message]: the destination in the form the
    vendor wants. *)
Definition normalize_recipient (recipient_number : string) : string :=
  if negb (startswith recipient_number "whatsapp:+")
     && negb (startswith recipient_number "+")
  then "whatsapp:+" +:+ lstrip "+" recipient_number
  else if startswith recipient_number "+"
  then "whatsapp:" +:+ recipient_number
  else recipient_number.

Section WithVendors.
Context (cfg : Config) (v : Vendors).

(** [TwilioWhatsAppClient.__init__(account_sid, auth_token, twilio_whatsapp_number)]. *)
Definition TwilioWhatsAppClient_init
    (account_sid auth_token twilio_whatsapp_number : option string)
    : M TwilioWhatsAppClient :=
  let account_sid := opt_or account_sid (TWILIO_ACCOUNT_SID cfg) in
  let auth_token := opt_or auth_token (TWILIO_AUTH_TOKEN cfg) in
  let twilio_whatsapp_number := opt_or twilio_whatsapp_number (TWILIO_WHATSAPP_NUMBER cfg) in
  if negb (truthy_opt account_sid && truthy_opt auth_token
           && truthy_opt twilio_whatsapp_number) then
    raise (TwilioMessageError
      ("Credenciais Twilio incompletas. Verifique: "
       +:+ "TWILIO_ACCOUNT_SID, TWILIO_AUTH_TOKEN, TWILIO_WHATSAPP_NUMBER"))
  else
    let sid := default "" account_sid in
    let token := default "" auth_token in
    catch
      (_ <- call (TwilioRestClient sid token) (fun l => twilio_rest_client v l sid token) ;;
       ret {| TwilioService.account_sid := sid;
              TwilioService.auth_token := token;
              TwilioService.twilio_whatsapp_number := default "" twilio_whatsapp_number |})
      [([CException], fun e =>
          raise (TwilioMessageError ("Erro ao inicializar cliente Twilio: " +:+ str_exn e)))].

(** [TwilioWhatsAppClient.send_text_message(recipient_number, message_body, media_urls)]. *)
Definition send_text_message (self : TwilioWhatsAppClient)
    (recipient_number message_body : string) (media_urls : option (list string))
    : M SendResult :=
  let recipient_number := normalize_recipient recipient_number in
  let from_number := "whatsapp:" +:+ twilio_whatsapp_number self in
  let media_url :=
    match media_urls with
    | Some (u :: _) => Some u
    | Some [] | None => None
    end in
  catch
    (message <- call (MessagesCreate message_body from_number recipient_number media_url)
                  (fun l => messages_create v l message_body from_number
                              recipient_number media_url) ;;
     ret {| success := true;
            message_sid := fst message;
            status := snd message;
            to := recipient_number;
            from_ := from_number |})
    [([CTwilioRestException], fun e =>
        match e with
        | TwilioRestException st msg =>
            raise (TwilioMessageError ("Erro Twilio " +:+ pretty st +:+ ": " +:+ msg))
        | _ => raise e
        end);
     ([CException], fun e =>
        raise (TwilioMessageError ("Erro ao enviar mensagem: " +:+ str_exn e)))].

End WithVendors.
End TwilioService.

(** ** The HTTP routes of the webhook ([app.py]) *)

Module App.

(** [PlainTextResponse(content=..., status_code=...)]. *)
Record PlainTextResponse : Type := {
  content : string;
  status_code : Z
}.

(** The JSON dictionary [handle_webhook] returns. *)
Record Response : Type := {
  status : string;
  message : string
}.

Definition apology : string :=
  "Desculpe, ocorreu um erro ao processar sua mensagem.".

(** [webhook_data.get(...)] for the keys the handler reads. *)
Definition get_type (w : WebhookHandler.WebhookData) : option string :=
  match w with
  | WebhookHandler.Ignored t => Some t
  | _ => None
  end.

Definition get_detail (w : WebhookHandler.WebhookData) : string :=
  match w with
  | WebhookHandler.Error d => d
  | _ => "Erro desconhecido"
  end.

Definition get_sender_id (w : WebhookHandler.WebhookData) : option string :=
  match w with
  | WebhookHandler.Success m => Some (WebhookHandler.sender_id m)
  | _ => None
  end.

Definition get_message_type (w : WebhookHandler.WebhookData) : option string :=
  match w with
  | WebhookHandler.Success m => Some (WebhookHandler.message_type m)
  | _ => None
  end.

Definition get_message_body (w : WebhookHandler.WebhookData) : string :=
  match w with
  | WebhookHandler.Success m => WebhookHandler.message_body m
  | _ => ""
  end.

(** [str(x)] of an optional string. *)
Definition str_opt (o : option string) : string := default "None" o.

(** [verify_webhook_endpoint(request)]: an [HTTPException] that leaves it
    becomes the HTTP response of that status code. *)
Definition verify_webhook_endpoint (cfg : Config) (request : WebhookHandler.Request)
    : res PlainTextResponse :=
  try_except
    (Py.bind (WebhookHandler.verify_webhook cfg request) (fun result =>
     Ret {| content := result; status_code := 200 |}))
    [([CHTTPException], fun e => Raise e);
     ([CException], fun _ =>
        Raise (HTTPException 500 "Erro interno ao verificar webhook"))].

Section WithVendors.
Context (cfg : Config) (v : Vendors).

(** Lines 39-44: the module level [twilio_client]. *)
Definition make_twilio_client : M (option TwilioService.TwilioWhatsAppClient) :=
  catch
    (c <- TwilioService.TwilioWhatsAppClient_init cfg v None None None ;;
     ret (Some c))
    [([CTwilioMessageError], fun _ => ret None)].

Context (twilio_client : option TwilioService.TwilioWhatsAppClient).

(** Lines 154-189: the branch for a text message with a body. *)
Definition handle_text (sender_id : option string) (message_body : string) : M Response :=
  if negb (truthy_opt sender_id) then
    ret {| status := "success"; message := "Mensagem vazia" |}
  else
    chat_session <- GeminiClient.get_or_create_session cfg v (str_opt sender_id) None ;;
    ai_response <-
      catch (GeminiClient.send_message v chat_session message_body)
        [([CException], fun _ => ret apology)] ;;
    match twilio_client with
    | Some client =>
        early <-
          catch
            (_ <- TwilioService.send_text_message v client (str_opt sender_id)
                    ai_response None ;;
             ret None)
            [([CTwilioMessageError], fun e =>
                ret (Some {| status := "error";
                             message := "Falha ao enviar: " +:+ str_exn e |}))] ;;
        match early with
        | Some response => ret response
        | None => ret {| status := "success"; message := "Mensagem processada" |}
        end
    | None =>
        ret {| status := "warning"; message := "Twilio não disponível" |}
    end.

(** Lines 136-197: what the handler does with the outcome of
    [process_webhook]. *)
Definition dispatch (webhook_data : WebhookHandler.WebhookData) : M Response :=
  if String.eqb (WebhookHandler.status webhook_data) "ignored" then
    ret {| status := "success"; message := "Evento ignorado" |}
  else if String.eqb (WebhookHandler.status webhook_data) "error" then
    let error_detail := get_detail webhook_data in
    ret {| status := "error"; message := "Erro ao processar: " +:+ error_detail |}
  else
    let sender_id := get_sender_id webhook_data in
    let message_type := get_message_type webhook_data in
    let message_body := get_message_body webhook_data in
    if WebhookHandler.option_string_eqb message_type (Some "text")
       && truthy message_body then
      handle_text sender_id message_body
    else if WebhookHandler.option_string_eqb message_type (Some "media") then
      ret {| status := "success"; message := "Mídia recebida" |}
    else
      ret {| status := "success"; message := "Tipo de mensagem não suportado" |}.

(** [handle_webhook(request)]; [form] is the outcome of
    [await request.form()] turned into a dictionary. *)
Definition handle_webhook (form : res (gmap string string)) : M Response :=
  catch
    (data <- lift form ;;
     webhook_data <- lift (WebhookHandler.process_webhook data) ;;
     dispatch webhook_data)
    [([CException], fun e =>
        ret {| status := "error"; message := "Erro crítico: " +:+ str_exn e |})].

End WithVendors.
End App.

(** ** Start-up checks ([config.py], [app.py] lines 30-44) *)

Module Startup.

(** [sep.join(l)]. *)
Fixpoint join (sep : string) (l : list string) : string :=
  match l with
  | [] => ""
  | [x] => x
  | x :: rest => x +:+ sep +:+ join sep rest
  end.

(** The list [required_vars] of [Config.validate]. *)
Definition required_vars (cfg : Config) : list (string * option string) :=
  [("VERIFY_TOKEN", VERIFY_TOKEN cfg);
   ("GEMINI_API_KEY", GEMINI_API_KEY cfg);
   ("TWILIO_ACCOUNT_SID", TWILIO_ACCOUNT_SID cfg);
   ("TWILIO_AUTH_TOKEN", TWILIO_AUTH_TOKEN cfg);
   ("TWILIO_WHATSAPP_NUMBER", TWILIO_WHATSAPP_NUMBER cfg)].

(** [[name for name, value in required_vars if not value]]. *)
Definition missing_vars (cfg : Config) : list string :=
  map fst (List.filter (fun nv => negb (truthy_opt (snd nv))) (required_vars cfg)).

(** [Config.validate()]; [EnvironmentError] is [OSError]. *)
Definition validate (cfg : Config) : res unit :=
  match missing_vars cfg with
  | [] => Ret tt
  | _ :: _ =>
      Raise (OtherException "OSError"
        ("Variáveis de ambiente obrigatórias não configuradas: "
         +:+ join ", " (missing_vars cfg) +:+ ". "
         +:+ "Verifique o arquivo .env e a instalação do python-dotenv."))
  end.

(** [Config.validate_twilio()]. *)
Definition validate_twilio (cfg : Config) : bool :=
  truthy_opt (TWILIO_ACCOUNT_SID cfg) && truthy_opt (TWILIO_AUTH_TOKEN cfg)
  && truthy_opt (TWILIO_WHATSAPP_NUMBER cfg).

(** Lines 30-44 of [app.py]: the configuration is validated (a failure
    stops the import with a [RuntimeError]), the registry is created empty,
    and the Twilio client is built or left as [None]. *)
Definition startup (cfg : Config) (v : Vendors)
    : M (option TwilioService.TwilioWhatsAppClient) :=
  match validate cfg with
  | Raise e =>
      match e with
      | OtherException name msg =>
          if String.eqb name "OSError"
          then raise (OtherException "RuntimeError" ("Falha na inicialização: " +:+ msg))
          else raise e
      | _ => raise e
      end
  | Ret _ =>
      _ <- put_sessions ∅ ;;
      App.make_twilio_client cfg v
  end.

End Startup.

(** ** The other entry points of [services/twilio_service.py] *)

Module TwilioMore.

(** The dictionary [parse_incoming_webhook] returns. *)
Record ParsedWebhook : Type := {
  status : string;
  message_sid : string;
  account_sid : option string;
  sender_id : string;
  message_type : string;
  message_body : string;
  media_urls : list string;
  timestamp : string;
  raw_webhook : gmap string string
}.

(** [int(webhook_data.get("NumMedia", 0))]: the default is the integer 0. *)
Definition num_media (webhook_data : gmap string string) : res Z :=
  match webhook_data !! "NumMedia" with
  | Some s => Py.int s
  | None => Ret 0
  end.

(** [TwilioWhatsAppClient.parse_incoming_webhook(webhook_data)]. *)
Definition parse_incoming_webhook (webhook_data : gmap string string)
    : res ParsedWebhook :=
  try_except
    (let message_sid := webhook_data !! "MessageSid" in
     let account_sid := webhook_data !! "AccountSid" in
     let from_number := replace (default "" (webhook_data !! "From")) "whatsapp:" "" in
     let to_number := replace (default "" (webhook_data !! "To")) "whatsapp:" "" in
     let message_body := default "" (webhook_data !! "Body") in
     Py.bind (num_media webhook_data) (fun num_media =>
     if negb (truthy_opt message_sid) || negb (truthy from_number) then
       Raise (TwilioMessageError "Dados de mensagem incompletos no webhook")
     else
       let media_urls :=
         fold_left (WebhookHandler.media_step webhook_data) (range num_media) [] in
       Ret {| status := "success";
              message_sid := default "" message_sid;
              account_sid := account_sid;
              sender_id := from_number;
              message_type := if bool_decide (media_urls = []) then "text" else "media";
              message_body := message_body;
              media_urls := media_urls;
              timestamp := default "" (webhook_data !! "Timestamp");
              raw_webhook := webhook_data |}))
    [([CKeyError; CValueError; CTypeError], fun e =>
        Raise (TwilioMessageError ("Erro ao processar webhook: " +:+ str_exn e)))].

(** [send_whatsapp_message(recipient_number, message_body, media_urls,
    account_sid, auth_token, twilio_whatsapp_number)]. *)
Definition send_whatsapp_message (cfg : Config) (v : Vendors)
    (recipient_number message_body : string) (media_urls : option (list string))
    (account_sid auth_token twilio_whatsapp_number : option string) : M bool :=
  catch
    (client <- TwilioService.TwilioWhatsAppClient_init cfg v
                 account_sid auth_token twilio_whatsapp_number ;;
     _ <- TwilioService.send_text_message v client recipient_number message_body
            media_urls ;;
     ret true)
    [([CTwilioMessageError], fun _ => ret false)].

End TwilioMore.

(** ** The monitoring route [/health] ([app.py] lines 218-230) *)

Module Monitoring.

Record Health : Type := {
  status : string;
  service : string;
  active_sessions : nat
}.

(** [health_check()]: [len(chat_manager.sessions)] is the size of the
    dictionary. *)
Definition health_check (st : State) : Health :=
  {| status := "ok";
     service := "CryptoLock Chatbot API";
     active_sessions := size (sessions st) |}.

End Monitoring.

(** ** Predicates on the state, to state what the registry keeps *)

Module Inv.

(** Every stored session object is older than the next identity. *)
Definition oids_allocated (st : State) : Prop :=
  forall u s, sessions st !! u = Some s -> (oid s < next_oid st)%nat.

(** No session object is stored under two user ids. *)
Definition oids_distinct (st : State) : Prop :=
  forall u1 u2 s1 s2,
    sessions st !! u1 = Some s1 -> sessions st !! u2 = Some s2 ->
    oid s1 = oid s2 -> u1 = u2.

(** The vendor calls that send a message out. *)
Definition is_send (c : VendorCall) : bool :=
  match c with
  | MessagesCreate _ _ _ _ => true
  | _ => false
  end.

(** The media count [process_webhook] works with (lines 72 and 86-89). *)
Definition media_count (data : gmap string string) : Z :=
  match Py.int (default "0" (data !! "NumMedia")) with
  | Ret n => n
  | Raise _ => 0
  end.

(** A string of decimal digits. *)
Definition is_digit (c : ascii) : bool :=
  let n := nat_of_ascii c in ((48 <=? n) && (n <=? 57))%nat.

Fixpoint all_digits (s : string) : bool :=
  match s with
  | EmptyString => true
  | String c s' => is_digit c && all_digits s'
  end.

End Inv.

(** ** Concrete configurations, vendors and requests

    Used to run the handlers on explicit inputs. *)

Module Fixtures.

Definition cfg : Config := {|
  VERIFY_TOKEN := Some "secret";
  GEMINI_API_KEY := Some "key";
  TWILIO_ACCOUNT_SID := Some "AC1";
  TWILIO_AUTH_TOKEN := Some "token";
  TWILIO_WHATSAPP_NUMBER := Some "+14155238886";
  GEMINI_MODEL := "gemini-2.5-flash"
|}.

(** Vendors that always answer. *)
Definition vendors_up : Vendors := {|
  genai_client := fun _ _ => Ret tt;
  read_prompt_file := fun _ => None;
  chats_create := fun l _ _ => Ret (length l);
  chat_send_message := fun _ _ m => Ret (Some ("re: " +:+ m));
  twilio_rest_client := fun _ _ _ => Ret tt;
  messages_create := fun _ _ _ _ _ => Ret ("SM900", "queued")
|}.

(** The language model is unreachable. *)
Definition vendors_gemini_down : Vendors := {|
  genai_client := fun _ _ => Ret tt;
  read_prompt_file := fun _ => None;
  chats_create := fun l _ _ => Ret (length l);
  chat_send_message := fun _ _ _ => Raise (OtherException "ServerError" "503 UNAVAILABLE");
  twilio_rest_client := fun _ _ _ => Ret tt;
  messages_create := fun _ _ _ _ _ => Ret ("SM900", "queued")
|}.

(** The messaging gateway rejects every send. *)
Definition vendors_twilio_down : Vendors := {|
  genai_client := fun _ _ => Ret tt;
  read_prompt_file := fun _ => None;
  chats_create := fun l _ _ => Ret (length l);
  chat_send_message := fun _ _ m => Ret (Some ("re: " +:+ m));
  twilio_rest_client := fun _ _ _ => Ret tt;
  messages_create := fun _ _ _ _ _ => Raise (TwilioRestException 400 "Bad Request")
|}.

(** The language model is unreachable and the gateway client cannot be
    built at start-up. *)
Definition vendors_no_twilio_client : Vendors := {|
  genai_client := fun _ _ => Ret tt;
  read_prompt_file := fun _ => None;
  chats_create := fun l _ _ => Ret (length l);
  chat_send_message := fun _ _ _ => Raise (OtherException "ServerError" "503 UNAVAILABLE");
  twilio_rest_client := fun _ _ _ => Raise (OtherException "TwilioException" "no transport");
  messages_create := fun _ _ _ _ _ => Ret ("SM900", "queued")
|}.

Definition twilio_client : TwilioService.TwilioWhatsAppClient := {|
  TwilioService.account_sid := "AC1";
  TwilioService.auth_token := "token";
  TwilioService.twilio_whatsapp_number := "+14155238886"
|}.

(** Inbound deliveries. *)
Definition text_message : gmap string string :=
  list_to_map [("MessageSid", "SM1"); ("From", "whatsapp:+15551234567");
               ("Body", "hello"); ("NumMedia", "0")].

Definition media_message : gmap string string :=
  list_to_map [("MessageSid", "SM2"); ("From", "whatsapp:+1555");
               ("NumMedia", "2"); ("MediaUrl0", "http://a"); ("MediaUrl1", "http://b")].

Definition media_count_without_urls : gmap string string :=
  list_to_map [("MessageSid", "SM3"); ("From", "whatsapp:+1555");
               ("Body", "hi"); ("NumMedia", "2")].

Definition bad_media_count : gmap string string :=
  list_to_map [("MessageSid", "SM4"); ("From", "whatsapp:+1555");
               ("Body", "hi"); ("NumMedia", "abc")].

Definition empty_message_sid : gmap string string :=
  list_to_map [("MessageSid", ""); ("From", "whatsapp:+1555")].

(** Verification requests. *)
Definition signed_request : WebhookHandler.Request := {|
  WebhookHandler.headers := [("x-twilio-signature", "not-a-real-signature")];
  WebhookHandler.query_params := [("hub.verify_token", "wrong")];
  WebhookHandler.body := "anything"
|}.

Definition empty_signature_request : WebhookHandler.Request := {|
  WebhookHandler.headers := [("x-twilio-signature", "")];
  WebhookHandler.query_params := [];
  WebhookHandler.body := ""
|}.

Definition token_request : WebhookHandler.Request := {|
  WebhookHandler.headers := [];
  WebhookHandler.query_params := [("hub.verify_token", "secret"); ("hub.challenge", "xyz")];
  WebhookHandler.body := ""
|}.

Definition token_request_no_challenge : WebhookHandler.Request := {|
  WebhookHandler.headers := [];
  WebhookHandler.query_params := [("hub.verify_token", "secret")];
  WebhookHandler.body := ""
|}.

Definition wrong_token_request : WebhookHandler.Request := {|
  WebhookHandler.headers := [];
  WebhookHandler.query_params := [("hub.verify_token", "guess"); ("hub.challenge", "xyz")];
  WebhookHandler.body := ""
|}.

(** The registry after the first contact of one user, with [vendors_up]. *)
Definition first_session : GeminiChatSession := {|
  oid := 0;
  user_id := "+15551234567";
  client_api_key := Some "key";
  chat := {| chat_model := "gemini-2.5-flash";
             chat_system_instruction := GeminiClient.default_system_instruction;
             chat_handle := 2 |}
|}.

Definition state_after_first : State := {|
  sessions := {[ "+15551234567" := first_session ]};
  log := [GenaiClient (Some "key"); ReadPromptFile;
          ChatsCreate "gemini-2.5-flash" GeminiClient.default_system_instruction];
  next_oid := 1
|}.

Definition other_operations : list GeminiClient.Op :=
  [GeminiClient.OpGetOrCreate "+15557654321" (Some "Be brief.");
   GeminiClient.OpGet "+15551234567";
   GeminiClient.OpGet "+15550000000"].

(** The normalized form of [text_message]. *)
Definition text_message_normalized : WebhookHandler.Message := {|
  WebhookHandler.sender_id := "+15551234567";
  WebhookHandler.message_type := "text";
  WebhookHandler.timestamp := "";
  WebhookHandler.message_sid := "SM1";
  WebhookHandler.account_sid := None;
  WebhookHandler.message_body := "hello";
  WebhookHandler.media_urls := [];
  WebhookHandler.raw_message := {|
    WebhookHandler.raw_from := "+15551234567";
    WebhookHandler.raw_to := "";
    WebhookHandler.raw_type := "text";
    WebhookHandler.raw_text := Some "hello";
    WebhookHandler.raw_message_sid := "SM1" |}
|}.

End Fixtures.

(** ** The media URLs of a delivery, as the design document words them

    Not taken from the code: the list the normalizer is said to collect, to
    compare with what [WebhookHandler.collect_media] computes. *)

Module Spec.

(** The field [MediaUrl<i>] when it is present with a non-empty value. *)
Definition present_media_url (data : gmap string string) (i : nat) : option string :=
  match data !! ("MediaUrl" +:+ pretty i) with
  | Some url => if truthy url then Some url else None
  | None => None
  end.

(** The present fields among [MediaUrl0] .. [MediaUrl<n-1>], in index
    order, absent ones skipped. *)
Definition present_media_urls (data : gmap string string) (n : nat) : list string :=
  omap (present_media_url data) (seq 0 n).

End Spec.

(** ** More concrete inputs *)

Module MoreFixtures.

(** A configuration with two required values missing. *)
Definition cfg_incomplete : Config := {|
  VERIFY_TOKEN := Some "secret";
  GEMINI_API_KEY := None;
  TWILIO_ACCOUNT_SID := Some "AC1";
  TWILIO_AUTH_TOKEN := Some "";
  TWILIO_WHATSAPP_NUMBER := Some "+14155238886";
  GEMINI_MODEL := "gemini-2.5-flash"
|}.

(** A configuration without a verification secret. *)
Definition cfg_no_secret : Config := {|
  VERIFY_TOKEN := None;
  GEMINI_API_KEY := Some "key";
  TWILIO_ACCOUNT_SID := Some "AC1";
  TWILIO_AUTH_TOKEN := Some "token";
  TWILIO_WHATSAPP_NUMBER := Some "+14155238886";
  GEMINI_MODEL := "gemini-2.5-flash"
|}.

(** A verification request with no header and no parameter. *)
Definition bare_request : WebhookHandler.Request := {|
  WebhookHandler.headers := [];
  WebhookHandler.query_params := [];
  WebhookHandler.body := ""
|}.

(** A delivery with media fields but no media count. *)
Definition urls_without_count : gmap string string :=
  list_to_map [("MessageSid", "SM5"); ("From", "whatsapp:+1555");
               ("MediaUrl0", "http://a")].

(** A delivery with a media count larger than the fields present, one of
    them empty. *)
Definition sparse_media : gmap string string :=
  list_to_map [("MessageSid", "SM6"); ("From", "whatsapp:+1555"); ("NumMedia", "3");
               ("MediaUrl0", ""); ("MediaUrl2", "http://c"); ("MediaUrl3", "http://d")].

(** A delivery whose sender has the transport prefix in the middle. *)
Definition inner_prefix : gmap string string :=
  list_to_map [("MessageSid", "SM7"); ("From", "xwhatsapp:+1555"); ("Body", "hi")].

(** A text delivery with an empty body. *)
Definition empty_body : gmap string string :=
  list_to_map [("MessageSid", "SM8"); ("From", "whatsapp:+15551234567");
               ("Body", ""); ("NumMedia", "0")].

(** The language model cannot open a chat. *)
Definition vendors_no_chat : Vendors := {|
  genai_client := fun _ _ => Ret tt;
  read_prompt_file := fun _ => None;
  chats_create := fun _ _ _ => Raise (OtherException "ClientError" "401 UNAUTHENTICATED");
  chat_send_message := fun _ _ m => Ret (Some ("re: " +:+ m));
  twilio_rest_client := fun _ _ _ => Ret tt;
  messages_create := fun _ _ _ _ _ => Ret ("SM900", "queued")
|}.

(** The prompt file is there. *)
Definition vendors_with_prompt : Vendors := {|
  genai_client := fun _ _ => Ret tt;
  read_prompt_file := fun _ => Some "Template instruction.";
  chats_create := fun l _ _ => Ret (length l);
  chat_send_message := fun _ _ m => Ret (Some ("re: " +:+ m));
  twilio_rest_client := fun _ _ _ => Ret tt;
  messages_create := fun _ _ _ _ _ => Ret ("SM900", "queued")
|}.

(** A verification request whose signature header is empty and whose token
    is the secret. *)
Definition empty_signature_token_request : WebhookHandler.Request := {|
  WebhookHandler.headers := [("x-twilio-signature", "")];
  WebhookHandler.query_params := [("hub.verify_token", "secret"); ("hub.challenge", "xyz")];
  WebhookHandler.body := ""
|}.

(** A delivery with a media count that is not a number and no message id. *)
Definition bad_media_count_no_ids : gmap string string :=
  list_to_map [("From", "whatsapp:+1555"); ("Body", "hi"); ("NumMedia", "abc")].

End MoreFixtures.

(** * Properties *)

(** ** Webhook authenticity check *)

Section VerifyWebhook.
Import WebhookHandler.

Lemma truthy_opt_Some_nonempty (s : string) :
  s <> "" -> truthy_opt (Some s) = true.
Proof. destruct s; [congruence | reflexivity]. Qed.

Lemma option_string_eqb_spec (a b : option string) :
  option_string_eqb a b = true <-> a = b.
Proof.
  destruct a as [x|], b as [y|]; simpl; try (split; congruence).
  rewrite String.eqb_eq. split; congruence.
Qed.

Lemma option_string_eqb_neq (a b : option string) :
  a <> b -> option_string_eqb a b = false.
Proof.
  intros Hne. destruct (option_string_eqb a b) eqn:E; [| reflexivity].
  apply option_string_eqb_spec in E. contradiction.
Qed.

(** Without a usable signature header the token decides. *)
Lemma verify_webhook_unsigned (cfg : Config) (r : Request) :
  truthy_opt (headers_get r "X-Twilio-Signature") = false ->
  verify_webhook cfg r =
    if option_string_eqb (query_params_get r "hub.verify_token") (VERIFY_TOKEN cfg)
    then Ret (str_or (default "" (query_params_get r "hub.challenge")) "ok")
    else Raise (HTTPException 403 "Token de verificação inválido ou ausente").
Proof. intros H. unfold verify_webhook. rewrite H. reflexivity. Qed.

(** C1 (as amended): a verification request whose X-Twilio-Signature header
    has a non-empty value is approved with the fixed acknowledgment "ok",
    whatever that value, the body, the query parameters (hub.verify_token
    included) and the configured secret are: nothing is computed from the
    signature, and the endpoint answers 200 with body "ok".  A header with
    an empty value is treated like an absent header: the answer is that of
    the same request without headers, so the token decides, and a token that
    differs from the secret is denied with 403. *)
Theorem verify_webhook_signature_present (cfg : Config) (r : Request) :
  (forall signature,
      headers_get r "X-Twilio-Signature" = Some signature ->
      signature <> "" ->
      verify_webhook cfg r = Ret "ok"
      /\ App.verify_webhook_endpoint cfg r
         = Ret {| App.content := "ok"; App.status_code := 200 |})
  /\ (headers_get r "X-Twilio-Signature" = Some "" ->
      verify_webhook cfg r
      = verify_webhook cfg {| headers := [];
                              query_params := query_params r;
                              body := body r |}
      /\ (query_params_get r "hub.verify_token" = VERIFY_TOKEN cfg ->
          verify_webhook cfg r
          = Ret (str_or (default "" (query_params_get r "hub.challenge")) "ok"))
      /\ (query_params_get r "hub.verify_token" <> VERIFY_TOKEN cfg ->
          verify_webhook cfg r
          = Raise (HTTPException 403 "Token de verificação inválido ou ausente")
          /\ App.verify_webhook_endpoint cfg r
             = Raise (HTTPException 403 "Token de verificação inválido ou ausente"))).
Proof.
  split.
  - intros signature Hsig Hne.
    assert (Hv : verify_webhook cfg r = Ret "ok").
    { unfold verify_webhook. rewrite Hsig, (truthy_opt_Some_nonempty _ Hne).
      reflexivity. }
    split; [exact Hv |].
    unfold App.verify_webhook_endpoint. rewrite Hv. reflexivity.
  - intros Hempty.
    assert (Hf : truthy_opt (headers_get r "X-Twilio-Signature") = false)
      by (rewrite Hempty; reflexivity).
    pose proof (verify_webhook_unsigned cfg r Hf) as Hv.
    split; [| split].
    + rewrite Hv. symmetry.
      apply (verify_webhook_unsigned cfg
               {| headers := []; query_params := query_params r; body := body r |}).
      reflexivity.
    + intros Heq. rewrite Hv.
      rewrite (proj2 (option_string_eqb_spec _ _) Heq). reflexivity.
    + intros Hne. unfold App.verify_webhook_endpoint.
      rewrite Hv, (option_string_eqb_neq _ _ Hne). split; reflexivity.
Qed.

(** C7: a verification request without an X-Twilio-Signature header is
    answered 200 with the value of hub.challenge when hub.verify_token
    equals the configured secret ("ok" when the challenge is absent or
    empty), and is denied with status 403 when the token differs from the
    secret. *)
Theorem verify_webhook_token_path (cfg : Config) (r : Request) :
  headers_get r "X-Twilio-Signature" = None ->
  (forall token challenge,
      query_params_get r "hub.verify_token" = Some token ->
      VERIFY_TOKEN cfg = Some token ->
      query_params_get r "hub.challenge" = Some challenge ->
      challenge <> "" ->
      verify_webhook cfg r = Ret challenge
      /\ App.verify_webhook_endpoint cfg r
         = Ret {| App.content := challenge; App.status_code := 200 |})
  /\ (forall token,
      query_params_get r "hub.verify_token" = Some token ->
      VERIFY_TOKEN cfg = Some token ->
      query_params_get r "hub.challenge" = None
      \/ query_params_get r "hub.challenge" = Some "" ->
      verify_webhook cfg r = Ret "ok"
      /\ App.verify_webhook_endpoint cfg r
         = Ret {| App.content := "ok"; App.status_code := 200 |})
  /\ (query_params_get r "hub.verify_token" <> VERIFY_TOKEN cfg ->
      verify_webhook cfg r
      = Raise (HTTPException 403 "Token de verificação inválido ou ausente")
      /\ App.verify_webhook_endpoint cfg r
         = Raise (HTTPException 403 "Token de verificação inválido ou ausente")).
Proof.
  intros Hnone.
  assert (Hf : truthy_opt (headers_get r "X-Twilio-Signature") = false)
    by (rewrite Hnone; reflexivity).
  pose proof (verify_webhook_unsigned cfg r Hf) as Hv.
  unfold App.verify_webhook_endpoint.
  repeat split.
  - rewrite Hv, H, H0, H1. simpl. rewrite String.eqb_refl.
    destruct challenge; [congruence | reflexivity].
  - rewrite Hv, H, H0, H1. simpl. rewrite String.eqb_refl.
    destruct challenge; [congruence | reflexivity].
  - rewrite Hv, H, H0. simpl. rewrite String.eqb_refl.
    destruct H1 as [-> | ->]; reflexivity.
  - rewrite Hv, H, H0. simpl. rewrite String.eqb_refl.
    destruct H1 as [-> | ->]; reflexivity.
  - rewrite Hv, (option_string_eqb_neq _ _ H). reflexivity.
  - rewrite Hv, (option_string_eqb_neq _ _ H). reflexivity.
Qed.

End VerifyWebhook.

(** C1, as stated, fails: a request that carries the header with an empty
    value is not approved by it; with no matching token it is denied. *)
Lemma verify_webhook_empty_signature_denied :
  WebhookHandler.headers_get Fixtures.empty_signature_request "X-Twilio-Signature"
  = Some ""
  /\ WebhookHandler.verify_webhook Fixtures.cfg Fixtures.empty_signature_request
     = Raise (HTTPException 403 "Token de verificação inválido ou ausente")
  /\ WebhookHandler.verify_webhook Fixtures.cfg Fixtures.empty_signature_request
     <> Ret "ok".
Proof. split; [reflexivity | split; [reflexivity | discriminate]]. Qed.

Lemma verify_webhook_signature_present_witness :
  WebhookHandler.headers_get Fixtures.signed_request "X-Twilio-Signature"
  = Some "not-a-real-signature"
  /\ WebhookHandler.query_params_get Fixtures.signed_request "hub.verify_token"
     <> VERIFY_TOKEN Fixtures.cfg
  /\ WebhookHandler.verify_webhook Fixtures.cfg Fixtures.signed_request = Ret "ok"
  /\ WebhookHandler.verify_webhook Fixtures.cfg Fixtures.empty_signature_request
     = Raise (HTTPException 403 "Token de verificação inválido ou ausente")
  /\ WebhookHandler.verify_webhook Fixtures.cfg
       MoreFixtures.empty_signature_token_request
     = Ret "xyz".
Proof.
  split; [reflexivity |]. split; [discriminate |]. split; [| split].
  - apply (proj1 (verify_webhook_signature_present Fixtures.cfg Fixtures.signed_request)
             "not-a-real-signature"); [reflexivity | discriminate].
  - apply (proj2 (proj2 (proj2 (verify_webhook_signature_present Fixtures.cfg
                                  Fixtures.empty_signature_request) eq_refl))).
    discriminate.
  - apply (proj1 (proj2 (proj2 (verify_webhook_signature_present Fixtures.cfg
                                  MoreFixtures.empty_signature_token_request)
                           eq_refl))).
    reflexivity.
Defined.

Lemma verify_webhook_token_path_witness :
  App.verify_webhook_endpoint Fixtures.cfg Fixtures.token_request
  = Ret {| App.content := "xyz"; App.status_code := 200 |}
  /\ App.verify_webhook_endpoint Fixtures.cfg Fixtures.token_request_no_challenge
     = Ret {| App.content := "ok"; App.status_code := 200 |}
  /\ App.verify_webhook_endpoint Fixtures.cfg Fixtures.wrong_token_request
     = Raise (HTTPException 403 "Token de verificação inválido ou ausente").
Proof.
  split; [| split].
  - apply (proj1 (verify_webhook_token_path Fixtures.cfg Fixtures.token_request
                    eq_refl) "secret" "xyz"); [reflexivity .. | discriminate].
  - apply (proj1 (proj2 (verify_webhook_token_path Fixtures.cfg
                           Fixtures.token_request_no_challenge eq_refl)) "secret");
      [reflexivity | reflexivity | left; reflexivity].
  - apply (proj2 (proj2 (verify_webhook_token_path Fixtures.cfg
                           Fixtures.wrong_token_request eq_refl))).
    discriminate.
Defined.

(** ** Session registry *)

Section Registry.
Import GeminiClient.
Context (cfg : Config) (v : Vendors).

(** The constructor of a session leaves the dictionary alone, and a
    session it returns carries the user id it was given. *)
Lemma GeminiChatSession_init_sessions (u : string) (i : option string) (st : State) :
  sessions (snd (GeminiChatSession_init cfg v u i st)) = sessions st.
Proof.
  unfold GeminiChatSession_init, load_prompt_template. unfold_M. simpl.
  destruct (genai_client v _ _); simpl; [| reflexivity].
  destruct i; simpl.
  - destruct (chats_create v _ _ _); reflexivity.
  - destruct (chats_create v _ _ _); reflexivity.
Qed.

Lemma GeminiChatSession_init_user_id (u : string) (i : option string)
    (st st' : State) (s : GeminiChatSession) :
  GeminiChatSession_init cfg v u i st = (Ret s, st') -> user_id s = u.
Proof.
  unfold GeminiChatSession_init, load_prompt_template. unfold_M. simpl.
  destruct (genai_client v _ _); simpl; [| discriminate].
  destruct i; simpl.
  - destruct (chats_create v _ _ _); intros [= <- _]; reflexivity.
  - destruct (chats_create v _ _ _); intros [= <- _]; reflexivity.
Qed.

Lemma not_in_dom_false (m : gmap string GeminiChatSession) (u : string)
    (s : GeminiChatSession) :
  m !! u = Some s -> bool_decide (u ∉ dom m) = false.
Proof.
  intros H. apply bool_decide_eq_false_2. intros Hn. apply Hn.
  apply elem_of_dom. eauto.
Qed.

Lemma not_in_dom_true (m : gmap string GeminiChatSession) (u : string) :
  m !! u = None -> bool_decide (u ∉ dom m) = true.
Proof. intros H. apply bool_decide_eq_true_2. by apply not_elem_of_dom. Qed.

(** The two branches of [get_or_create_session]. *)
Lemma get_or_create_session_present (u : string) (i : option string)
    (st : State) (s : GeminiChatSession) :
  sessions st !! u = Some s ->
  get_or_create_session cfg v u i st = (Ret s, st).
Proof.
  intros H. unfold get_or_create_session. unfold_M. simpl.
  rewrite (not_in_dom_false _ _ _ H). simpl. rewrite H. reflexivity.
Qed.

Lemma get_or_create_session_absent (u : string) (i : option string) (st : State) :
  sessions st !! u = None ->
  get_or_create_session cfg v u i st =
    match GeminiChatSession_init cfg v u i st with
    | (Ret s, st') => (Ret s, set_sessions (<[u := s]> (sessions st')) st')
    | (Raise e, st') => (Raise e, st')
    end.
Proof.
  intros H. unfold get_or_create_session. unfold_M. simpl.
  rewrite (not_in_dom_true _ _ H).
  destruct (GeminiChatSession_init cfg v u i st) as [[s | e] st']; simpl;
    [| reflexivity].
  rewrite lookup_insert_eq. reflexivity.
Qed.

(** C10: when the user id is already in the registry,
    [get_or_create_session] returns the stored session as it is, whatever
    [system_instruction] is passed (so the session keeps the instruction it
    was created with), and leaves the whole state as it was: every entry of
    the registry, and no vendor call is made. *)
Theorem get_or_create_session_existing
    (user_id : string) (system_instruction : option string)
    (st : State) (s : GeminiChatSession) :
  sessions st !! user_id = Some s ->
  get_or_create_session cfg v user_id system_instruction st = (Ret s, st)
  /\ get_or_create_session cfg v user_id system_instruction st
     = get_or_create_session cfg v user_id None st
  /\ (forall other,
        sessions (snd (get_or_create_session cfg v user_id system_instruction st))
          !! other
        = sessions st !! other)
  /\ log (snd (get_or_create_session cfg v user_id system_instruction st)) = log st.
Proof.
  intros H.
  rewrite !(get_or_create_session_present _ _ _ _ H). auto.
Qed.

(** C8: [delete_session] on an id that is not in the registry returns
    [False] and leaves the state unchanged; on an id that is in the
    registry it returns [True], the id is absent afterwards, and the other
    entries are untouched. *)
Theorem delete_session_spec (user_id : string) (st : State) :
  (sessions st !! user_id = None ->
     delete_session user_id st = (Ret false, st))
  /\ (is_Some (sessions st !! user_id) ->
      exists st',
        delete_session user_id st = (Ret true, st')
        /\ sessions st' !! user_id = None
        /\ (forall other, other <> user_id ->
              sessions st' !! other = sessions st !! other)
        /\ log st' = log st).
Proof.
  unfold delete_session. unfold_M. split.
  - intros H. rewrite bool_decide_eq_false_2; [reflexivity |].
    by apply not_elem_of_dom.
  - intros H. rewrite bool_decide_eq_true_2 by (by apply elem_of_dom).
    eexists. split; [reflexivity |]. simpl. split; [| split].
    + apply lookup_delete_eq.
    + intros other Hne. by apply lookup_delete_ne.
    + reflexivity.
Qed.

End Registry.

Section RegistryInvariant.
Import GeminiClient.
Context (cfg : Config) (v : Vendors).

Lemma run_op_sessions (o : Op) (st : State) :
  sessions (run_op cfg v o st) = sessions st
  \/ (exists u, o = OpDelete u /\ sessions (run_op cfg v o st) = delete u (sessions st))
  \/ (o = OpClear /\ sessions (run_op cfg v o st) = ∅)
  \/ (exists u i s, o = OpGetOrCreate u i /\ sessions st !! u = None
                    /\ user_id s = u
                    /\ sessions (run_op cfg v o st) = <[u := s]> (sessions st)).
Proof.
  destruct o as [u i | u | u |]; simpl.
  - destruct (sessions st !! u) as [s |] eqn:E.
    + left. by rewrite (get_or_create_session_present cfg v u i st s E).
    + rewrite (get_or_create_session_absent cfg v u i st E).
      pose proof (GeminiChatSession_init_sessions cfg v u i st) as Hs.
      destruct (GeminiChatSession_init cfg v u i st) as [[s | e] st'] eqn:Ei;
        simpl in *.
      * right. right. right. exists u, i, s.
        rewrite Hs. repeat split; try done.
        eapply GeminiChatSession_init_user_id; eauto.
      * by left.
  - by left.
  - right. left. exists u. split; [done |].
    unfold delete_session. unfold_M. case_bool_decide; simpl; [done |].
    symmetry. apply delete_id. by apply not_elem_of_dom.
  - right. right. left. done.
Qed.

Lemma run_op_keyed (o : Op) (st : State) :
  keyed_by_user (sessions st) -> keyed_by_user (sessions (run_op cfg v o st)).
Proof.
  intros Hk.
  destruct (run_op_sessions o st)
    as [-> | [(u & _ & ->) | [(_ & ->) | (u & i & s & _ & _ & Hu & ->)]]].
  - exact Hk.
  - intros u' s' H. apply lookup_delete_Some in H as [_ H]. by apply Hk.
  - intros u' s' H. by rewrite lookup_empty in H.
  - intros u' s' H. apply lookup_insert_Some in H as [[<- <-] | [_ H]];
      [exact Hu | by apply Hk].
Qed.

Lemma run_ops_keyed (ops : list Op) (st : State) :
  keyed_by_user (sessions st) -> keyed_by_user (sessions (run_ops cfg v ops st)).
Proof.
  revert st. induction ops as [| o ops IH]; intros st Hk; [exact Hk |].
  simpl. apply IH. by apply run_op_keyed.
Qed.

(** An operation that is neither a delete nor a clear keeps every stored
    session where it is. *)
Lemma run_op_keeps (o : Op) (st : State) (u : string) (s : GeminiChatSession) :
  removes o = false ->
  sessions st !! u = Some s ->
  sessions (run_op cfg v o st) !! u = Some s.
Proof.
  intros Hr H.
  destruct (run_op_sessions o st)
    as [-> | [(u' & -> & _) | [(-> & _) | (u' & i & s' & _ & Hnone & _ & ->)]]];
    try done.
  rewrite lookup_insert_ne; [done |]. intros ->. congruence.
Qed.

Lemma run_ops_keeps (ops : list Op) (st : State) (u : string) (s : GeminiChatSession) :
  forallb (fun o => negb (removes o)) ops = true ->
  sessions st !! u = Some s ->
  sessions (run_ops cfg v ops st) !! u = Some s.
Proof.
  revert st. induction ops as [| o ops IH]; intros st Hr H; [exact H |].
  simpl in *. apply andb_true_iff in Hr as [Ho Hr].
  apply IH; [exact Hr |]. apply run_op_keeps; [| exact H].
  by apply negb_true_iff.
Qed.

(** A call that returns has stored what it returns. *)
Lemma get_or_create_session_stored (u : string) (i : option string)
    (st st1 : State) (s : GeminiChatSession) :
  get_or_create_session cfg v u i st = (Ret s, st1) ->
  sessions st1 !! u = Some s.
Proof.
  intros H. destruct (sessions st !! u) as [s0 |] eqn:E.
  - rewrite (get_or_create_session_present cfg v u i st s0 E) in H.
    by injection H as <- <-.
  - rewrite (get_or_create_session_absent cfg v u i st E) in H.
    destruct (GeminiChatSession_init cfg v u i st) as [[s' | e] st']; [| done].
    injection H as <- <-. simpl. apply lookup_insert_eq.
Qed.

Lemma sessions_of_absent (uid : string) (m : gmap string GeminiChatSession) :
  keyed_by_user m -> m !! uid = None -> sessions_of uid m = [].
Proof.
  intros Hk Hnone. unfold sessions_of.
  assert (Hall : Forall (fun s => user_id s <> uid) (map snd (map_to_list m))).
  { apply Forall_forall. intros s Hin. apply list_elem_of_fmap in Hin as [[k s'] [-> Hin]].
    apply elem_of_map_to_list in Hin. simpl. intros Heq.
    rewrite (Hk _ _ Hin) in Heq. congruence. }
  induction Hall as [| s l Hs _ IH]; [reflexivity |].
  rewrite filter_cons_False; [exact IH | exact Hs].
Qed.

Lemma sessions_of_at_most_one (uid : string) (m : gmap string GeminiChatSession) :
  keyed_by_user m -> (length (sessions_of uid m) <= 1)%nat.
Proof.
  intros Hk. destruct (m !! uid) as [s |] eqn:E.
  - assert (Hk' : keyed_by_user (delete uid m)).
    { intros u' s' H. apply lookup_delete_Some in H as [_ H]. by apply Hk. }
    pose proof (sessions_of_absent uid (delete uid m) Hk' (lookup_delete_eq m uid)) as Hd.
    unfold sessions_of in *.
    rewrite <- (insert_delete_id m uid s E).
    rewrite (map_to_list_insert (delete uid m) uid s (lookup_delete_eq m uid)).
    simpl. destruct (decide (user_id s = uid)).
    + rewrite filter_cons_True by done. simpl. rewrite Hd. simpl. lia.
    + rewrite filter_cons_False by done. rewrite Hd. simpl. lia.
  - rewrite (sessions_of_absent uid m Hk E). simpl. lia.
Qed.

(** C5: when [get_or_create_session] has returned a session for a user id,
    a later call for the same id returns that same session object (same
    identity, same content) and changes nothing, provided no
    [delete_session] or [clear_all_sessions] came in between; and after any
    sequence of registry operations, started from the empty registry, the
    registry holds at most one session for each user id, stored under it. *)
Theorem get_or_create_session_same_instance
    (user_id : string) (instruction1 instruction2 : option string)
    (between : list Op) (st st1 : State) (s : GeminiChatSession) :
  get_or_create_session cfg v user_id instruction1 st = (Ret s, st1) ->
  forallb (fun o => negb (removes o)) between = true ->
  get_or_create_session cfg v user_id instruction2 (run_ops cfg v between st1)
  = (Ret s, run_ops cfg v between st1)
  /\ (forall (ops : list Op) (uid : string),
        (length (sessions_of uid (sessions (run_ops cfg v ops initial_state))) <= 1)%nat
        /\ keyed_by_user (sessions (run_ops cfg v ops initial_state))).
Proof.
  intros H1 Hb. split.
  - apply get_or_create_session_present.
    apply run_ops_keeps; [exact Hb |].
    eapply get_or_create_session_stored; eauto.
  - intros ops uid.
    assert (Hk : keyed_by_user (sessions (run_ops cfg v ops initial_state))).
    { apply run_ops_keyed. intros u s' H. simpl in H.
      by rewrite lookup_empty in H. }
    split; [by apply sessions_of_at_most_one | exact Hk].
Qed.

End RegistryInvariant.

Lemma get_or_create_session_existing_witness :
  GeminiClient.get_or_create_session Fixtures.cfg Fixtures.vendors_up
    "+15551234567" (Some "Answer in French.") Fixtures.state_after_first
  = (Ret Fixtures.first_session, Fixtures.state_after_first).
Proof.
  apply (get_or_create_session_existing Fixtures.cfg Fixtures.vendors_up
           "+15551234567" (Some "Answer in French.") Fixtures.state_after_first
           Fixtures.first_session).
  vm_compute. reflexivity.
Defined.

Lemma delete_session_spec_witness :
  GeminiClient.delete_session "+15550000000" Fixtures.state_after_first
  = (Ret false, Fixtures.state_after_first)
  /\ exists st',
       GeminiClient.delete_session "+15551234567" Fixtures.state_after_first
       = (Ret true, st')
       /\ sessions st' !! "+15551234567" = None.
Proof.
  split.
  - apply (proj1 (delete_session_spec "+15550000000" Fixtures.state_after_first)).
    vm_compute. reflexivity.
  - destruct (proj2 (delete_session_spec "+15551234567" Fixtures.state_after_first))
      as (st' & Hd & Hgone & _).
    + exists Fixtures.first_session. vm_compute. reflexivity.
    + exists st'. split; [exact Hd | exact Hgone].
Defined.

Lemma get_or_create_session_same_instance_witness :
  GeminiClient.get_or_create_session Fixtures.cfg Fixtures.vendors_up
    "+15551234567" None initial_state
  = (Ret Fixtures.first_session, Fixtures.state_after_first)
  /\ GeminiClient.get_or_create_session Fixtures.cfg Fixtures.vendors_up
       "+15551234567" (Some "Answer in French.")
       (GeminiClient.run_ops Fixtures.cfg Fixtures.vendors_up
          Fixtures.other_operations Fixtures.state_after_first)
     = (Ret Fixtures.first_session,
        GeminiClient.run_ops Fixtures.cfg Fixtures.vendors_up
          Fixtures.other_operations Fixtures.state_after_first).
Proof.
  assert (H1 : GeminiClient.get_or_create_session Fixtures.cfg Fixtures.vendors_up
                 "+15551234567" None initial_state
               = (Ret Fixtures.first_session, Fixtures.state_after_first))
    by (vm_compute; reflexivity).
  split; [exact H1 |].
  apply (get_or_create_session_same_instance Fixtures.cfg Fixtures.vendors_up
           "+15551234567" None (Some "Answer in French.")
           Fixtures.other_operations initial_state Fixtures.state_after_first
           Fixtures.first_session H1).
  reflexivity.
Defined.

(** ** Outbound sender *)

Section Normalization.
Import TwilioService.

Lemma prefix_app (p rest : string) : String.prefix p (p +:+ rest) = true.
Proof.
  induction p as [| c p IH].
  - destruct rest; reflexivity.
  - change (String c p +:+ rest) with (String c (p +:+ rest)).
    cbn [String.prefix].
    destruct (ascii_dec c c); [exact IH | congruence].
Qed.

Lemma normalize_recipient_prefixed (rest : string) :
  normalize_recipient ("whatsapp:+" +:+ rest) = "whatsapp:+" +:+ rest.
Proof.
  unfold normalize_recipient, startswith.
  rewrite (prefix_app "whatsapp:+" rest).
  change ("whatsapp:+" +:+ rest) with (String "w" ("hatsapp:+" +:+ rest)).
  reflexivity.
Qed.

Lemma startswith_plus (s : string) :
  startswith s "+" = true -> exists rest, s = String "+" rest.
Proof.
  unfold startswith. destruct s as [| c s]; cbn [String.prefix]; [discriminate |].
  destruct (ascii_dec "+" c) as [<- | Hne]; intros H; [eauto | discriminate H].
Qed.

Lemma normalize_recipient_idempotent (a : string) :
  normalize_recipient (normalize_recipient a) = normalize_recipient a.
Proof.
  unfold normalize_recipient at 2 3.
  destruct (startswith a "+") eqn:Hplus.
  - rewrite andb_false_r.
    destruct (startswith_plus a Hplus) as [rest ->].
    apply (normalize_recipient_prefixed rest).
  - destruct (startswith a "whatsapp:+") eqn:Hwa; simpl.
    + unfold normalize_recipient. rewrite Hwa, Hplus. reflexivity.
    + apply normalize_recipient_prefixed.
Qed.

(** C9: the normalization of the destination in [send_text_message] leaves
    an address that already has the form whatsapp:+... unchanged, and
    normalizing a normalized address gives the same string; the vendor is
    called with such an address as it was passed. *)
Theorem normalize_recipient_stable :
  (forall digits : string,
      normalize_recipient ("whatsapp:+" +:+ digits) = "whatsapp:+" +:+ digits)
  /\ (forall address : string,
        normalize_recipient (normalize_recipient address)
        = normalize_recipient address)
  /\ (forall (v : Vendors) (self : TwilioWhatsAppClient)
             (digits message_body : string) (st : State),
        log (snd (send_text_message v self ("whatsapp:+" +:+ digits)
                    message_body None st))
        = (log st ++ [MessagesCreate message_body
                        ("whatsapp:" +:+ twilio_whatsapp_number self)
                        ("whatsapp:+" +:+ digits) None])%list).
Proof.
  split; [exact normalize_recipient_prefixed |].
  split; [exact normalize_recipient_idempotent |].
  intros v self digits message_body st.
  unfold send_text_message. unfold_M.
  rewrite normalize_recipient_prefixed. simpl.
  destruct (messages_create v _ _ _ _ _) as [m | e]; simpl; [reflexivity |].
  destruct e; reflexivity.
Qed.

End Normalization.

(** ** Webhook normalizer *)

Section ProcessWebhook.
Import WebhookHandler.

(** [int] raises nothing but [ValueError]. *)
Lemma int_raises_ValueError (s : string) (e : exn) :
  Py.int s = Raise e -> exists msg, e = ValueError msg.
Proof.
  unfold Py.int, invalid_literal.
  destruct (startswith _ "_"); [intros [= <-]; eauto |].
  destruct (scan_digits _ _ _ _) as [[[val n] rest] |]; [| intros [= <-]; eauto].
  destruct (n =? 0)%nat; [intros [= <-]; eauto |].
  destruct (int_max_str_digits <? n)%nat; [intros [= <-]; eauto |].
  destruct (skip_spaces rest); [discriminate | intros [= <-]; eauto].
Qed.

(** The conversion of the media count never fails: a value [int] refuses
    counts as zero. *)
Lemma num_media_of_total (s : string) :
  num_media_of s = Ret (match Py.int s with Ret n => n | Raise _ => 0 end).
Proof.
  unfold num_media_of, try_except.
  destruct (Py.int s) as [n | e] eqn:E; [reflexivity |].
  destruct (int_raises_ValueError s e E) as [msg ->]. reflexivity.
Qed.

(** The loop over [range(num_media)] collects the present fields. *)
Lemma fold_media_step (data : gmap string string) (l : list nat) (acc : list string) :
  fold_left (media_step data) l acc = (acc ++ omap (Spec.present_media_url data) l)%list.
Proof.
  revert acc. induction l as [| i l IH]; intros acc; simpl.
  - by rewrite app_nil_r.
  - rewrite IH. unfold media_step, Spec.present_media_url.
    destruct (data !! _) as [url |]; [| reflexivity].
    destruct (truthy url); [| reflexivity].
    by rewrite <- app_assoc.
Qed.

Lemma collect_media_positive (data : gmap string string) (n : Z) :
  0 < n -> collect_media data n = Spec.present_media_urls data (Z.to_nat n).
Proof.
  intros Hn. unfold collect_media, Spec.present_media_urls, range.
  replace (0 <? n) with true by (symmetry; apply Z.ltb_lt; exact Hn).
  apply fold_media_step.
Qed.

Lemma collect_media_nonpositive (data : gmap string string) (n : Z) :
  n <= 0 -> collect_media data n = [].
Proof.
  intros Hn. unfold collect_media.
  replace (0 <? n) with false by (symmetry; apply Z.ltb_ge; exact Hn).
  reflexivity.
Qed.

(** What [process_webhook] returns, in one equation: never the error
    outcome, never an exception. *)
Lemma process_webhook_cases (data : gmap string string) :
  process_webhook data = process_webhook_body data
  /\ ((ids_missing data = true /\ process_webhook data = Ret (Ignored "invalid_data"))
      \/ (ids_missing data = false
          /\ exists m,
              process_webhook data = Ret (Success m)
              /\ sender_id m = strip_whatsapp (default "" (data !! "From"))
              /\ data !! "MessageSid" = Some (message_sid m)
              /\ message_body m = default "" (data !! "Body")
              /\ media_urls m
                 = collect_media data
                     (match Py.int (default "0" (data !! "NumMedia")) with
                      | Ret n => n
                      | Raise _ => 0
                      end)
              /\ message_type m = (if bool_decide (media_urls m = []) then "text"
                                   else "media"))).
Proof.
  unfold process_webhook, process_webhook_body, ids_missing.
  rewrite num_media_of_total. cbn [Py.bind].
  destruct (negb (truthy_opt (data !! "MessageSid"))
            || negb (truthy (strip_whatsapp (default "" (data !! "From"))))) eqn:E.
  - split; [reflexivity |]. left. split; reflexivity.
  - split; [reflexivity |]. right. split; [reflexivity |].
    eexists. split; [reflexivity |]. cbn [sender_id message_sid message_body
      media_urls message_type].
    apply orb_false_iff in E as [E1 _]. apply negb_false_iff in E1.
    destruct (data !! "MessageSid") as [sid |]; [| discriminate].
    repeat split.
    by destruct (bool_decide _).
Qed.

Lemma truthy_false (s : string) : truthy s = false <-> s = "".
Proof. destruct s; simpl; split; congruence. Qed.

Lemma handle_webhook_dispatch (cfg : Config) (v : Vendors)
    (tc : option TwilioService.TwilioWhatsAppClient)
    (data : gmap string string) (w : WebhookData) (st : State) :
  process_webhook data = Ret w ->
  App.handle_webhook cfg v tc (Ret data) st
  = catch (App.dispatch cfg v tc w)
      [([CException], fun e =>
          ret {| App.status := "error";
                 App.message := "Erro crítico: " +:+ str_exn e |})] st.
Proof.
  intros H. unfold App.handle_webhook. unfold_M. rewrite H. reflexivity.
Qed.

(** C4: when the message id is absent or empty, or the sender id is absent
    or empty once the transport prefix is stripped, [process_webhook]
    returns the ignored outcome of type invalid_data, and [handle_webhook]
    answers success (Evento ignorado) with the state exactly as it was,
    whatever the registry holds: no session is created or consulted and no
    vendor call, so no send, is made. *)
Theorem missing_ids_ignored (cfg : Config) (v : Vendors)
    (twilio_client : option TwilioService.TwilioWhatsAppClient)
    (data : gmap string string) (st : State) :
  data !! "MessageSid" = None \/ data !! "MessageSid" = Some ""
  \/ data !! "From" = None
  \/ strip_whatsapp (default "" (data !! "From")) = "" ->
  process_webhook data = Ret (Ignored "invalid_data")
  /\ App.handle_webhook cfg v twilio_client (Ret data) st
     = (Ret {| App.status := "success"; App.message := "Evento ignorado" |}, st).
Proof.
  intros H.
  assert (Hm : ids_missing data = true).
  { unfold ids_missing.
    destruct H as [-> | [-> | [-> | ->]]]; simpl; try reflexivity.
    all: apply orb_true_r. }
  destruct (process_webhook_cases data) as [_ [[_ Hp] | [Hf _]]]; [| congruence].
  split; [exact Hp |].
  rewrite (handle_webhook_dispatch _ _ _ _ _ _ Hp). reflexivity.
Qed.

(** C2 (as amended): for a mapping with a non-empty message id and sender
    id whose NumMedia parses to an integer n > 0, [process_webhook] returns
    a normalized message whose media_urls are exactly the fields
    MediaUrl0 .. MediaUrl(n-1) that are present with a non-empty value, in
    index order, the others skipped without error; the message is of type
    media when that list is not empty and of type text when it is. *)
Theorem media_urls_collected (data : gmap string string)
    (sid num_media_str : string) (n : Z) :
  data !! "MessageSid" = Some sid -> sid <> "" ->
  strip_whatsapp (default "" (data !! "From")) <> "" ->
  data !! "NumMedia" = Some num_media_str ->
  Py.int num_media_str = Ret n ->
  0 < n ->
  exists m,
    process_webhook data = Ret (Success m)
    /\ media_urls m = Spec.present_media_urls data (Z.to_nat n)
    /\ (media_urls m <> [] -> message_type m = "media")
    /\ (media_urls m = [] -> message_type m = "text").
Proof.
  intros Hsid Hne Hfrom Hnum Hint Hpos.
  destruct (process_webhook_cases data) as [_ [[Hm _] | [_ (m & Hp & _ & _ & _ & Hu & Ht)]]].
  - unfold ids_missing in Hm. rewrite Hsid in Hm.
    apply orb_true_iff in Hm as [Hm | Hm]; apply negb_true_iff in Hm.
    + destruct sid; [congruence | discriminate].
    + apply truthy_false in Hm. contradiction.
  - exists m. split; [exact Hp |].
    rewrite Hnum in Hu. simpl in Hu. rewrite Hint in Hu.
    rewrite (collect_media_positive data n Hpos) in Hu.
    split; [exact Hu |]. rewrite Ht.
    split; intros H; case_bool_decide; congruence.
Qed.

(** C3 (as amended): a NumMedia value that [int] refuses counts as a media
    count of zero.  [process_webhook] then returns the ignored outcome
    exactly when the message id or the sender id is missing, and otherwise a
    normalized message of type text without media URLs, carrying the message
    id, the stripped sender id and the body of the delivery; it returns the
    error outcome for no mapping at all, and it never raises.  Handed an
    error outcome, the handler would answer with status error and the
    detail, and do nothing else. *)
Theorem failed_media_count_is_zero (data : gmap string string)
    (num_media_str : string) (e : exn) :
  data !! "NumMedia" = Some num_media_str ->
  Py.int num_media_str = Raise e ->
  (data !! "MessageSid" = None \/ data !! "MessageSid" = Some ""
   \/ strip_whatsapp (default "" (data !! "From")) = "" ->
   process_webhook data = Ret (Ignored "invalid_data"))
  /\ (forall sid,
        data !! "MessageSid" = Some sid -> sid <> "" ->
        strip_whatsapp (default "" (data !! "From")) <> "" ->
        exists m, process_webhook data = Ret (Success m)
                  /\ media_urls m = [] /\ message_type m = "text"
                  /\ message_sid m = sid
                  /\ sender_id m = strip_whatsapp (default "" (data !! "From"))
                  /\ message_body m = default "" (data !! "Body"))
  /\ (process_webhook data = Ret (Ignored "invalid_data")
      \/ exists m, process_webhook data = Ret (Success m)
                   /\ media_urls m = [] /\ message_type m = "text")
  /\ (forall (any : gmap string string),
        (forall detail, process_webhook any <> Ret (Error detail))
        /\ (exists w, process_webhook any = Ret w))
  /\ (forall cfg v twilio_client detail st,
        App.dispatch cfg v twilio_client (Error detail) st
        = (Ret {| App.status := "error";
                  App.message := "Erro ao processar: " +:+ detail |}, st)).
Proof.
  intros Hnum Hint.
  assert (Hsucc : forall m,
            process_webhook data = Ret (Success m) ->
            sender_id m = strip_whatsapp (default "" (data !! "From")) ->
            data !! "MessageSid" = Some (message_sid m) ->
            message_body m = default "" (data !! "Body") ->
            media_urls m
            = collect_media data
                (match Py.int (default "0" (data !! "NumMedia")) with
                 | Ret n => n
                 | Raise _ => 0
                 end) ->
            message_type m = (if bool_decide (media_urls m = []) then "text"
                              else "media") ->
            media_urls m = [] /\ message_type m = "text").
  { intros m _ _ _ _ Hu Ht.
    rewrite Hnum in Hu. simpl in Hu. rewrite Hint in Hu.
    rewrite (collect_media_nonpositive data 0) in Hu by lia.
    split; [exact Hu |]. rewrite Ht, Hu. reflexivity. }
  split; [| split; [| split; [| split]]].
  - intros Hmiss.
    destruct (process_webhook_cases data) as [_ [[_ Hp] | [Hf _]]]; [exact Hp |].
    exfalso. unfold ids_missing in Hf. apply orb_false_iff in Hf as [H1 H2].
    apply negb_false_iff in H1, H2.
    destruct Hmiss as [Hm | [Hm | Hm]]; rewrite Hm in *; discriminate.
  - intros sid Hsid Hne Hfrom.
    destruct (process_webhook_cases data)
      as [_ [[Hm _] | [_ (m & Hp & Hs & Hid & Hb & Hu & Ht)]]].
    + exfalso. unfold ids_missing in Hm. rewrite Hsid in Hm.
      apply orb_true_iff in Hm as [Hm | Hm]; apply negb_true_iff in Hm.
      * destruct sid; [congruence | discriminate].
      * apply truthy_false in Hm. contradiction.
    + exists m. destruct (Hsucc m Hp Hs Hid Hb Hu Ht) as [Hu' Ht'].
      repeat split; try assumption. congruence.
  - destruct (process_webhook_cases data)
      as [_ [[_ Hp] | [_ (m & Hp & Hs & Hid & Hb & Hu & Ht)]]].
    + left. exact Hp.
    + right. exists m. split; [exact Hp |]. exact (Hsucc m Hp Hs Hid Hb Hu Ht).
  - intros any.
    destruct (process_webhook_cases any) as [_ [[_ Hp] | [_ (m & Hp & _)]]];
      rewrite Hp; split; try (intros detail; discriminate); eauto.
  - reflexivity.
Qed.

End ProcessWebhook.

(** C2, as stated, fails: a positive media count with no MediaUrl field
    gives a message of type text. *)
Lemma media_count_without_urls_is_text :
  Fixtures.media_count_without_urls !! "NumMedia" = Some "2"
  /\ Py.int "2" = Ret 2
  /\ WebhookHandler.process_webhook Fixtures.media_count_without_urls
     = Ret (WebhookHandler.Success {|
         WebhookHandler.sender_id := "+1555";
         WebhookHandler.message_type := "text";
         WebhookHandler.timestamp := "";
         WebhookHandler.message_sid := "SM3";
         WebhookHandler.account_sid := None;
         WebhookHandler.message_body := "hi";
         WebhookHandler.media_urls := [];
         WebhookHandler.raw_message := {|
           WebhookHandler.raw_from := "+1555";
           WebhookHandler.raw_to := "";
           WebhookHandler.raw_type := "text";
           WebhookHandler.raw_text := Some "hi";
           WebhookHandler.raw_message_sid := "SM3" |} |}).
Proof. split; [| split]; vm_compute; reflexivity. Qed.

Lemma media_urls_collected_witness :
  exists m,
    WebhookHandler.process_webhook Fixtures.media_message
    = Ret (WebhookHandler.Success m)
    /\ WebhookHandler.media_urls m = ["http://a"; "http://b"]
    /\ WebhookHandler.message_type m = "media".
Proof.
  destruct (media_urls_collected Fixtures.media_message "SM2" "2" 2)
    as (m & Hp & Hu & Hmedia & _).
  - vm_compute. reflexivity.
  - discriminate.
  - vm_compute. discriminate.
  - vm_compute. reflexivity.
  - vm_compute. reflexivity.
  - lia.
  - exists m. split; [exact Hp |].
    assert (Hl : WebhookHandler.media_urls m = ["http://a"; "http://b"])
      by (rewrite Hu; vm_compute; reflexivity).
    split; [exact Hl |]. apply Hmedia. rewrite Hl. discriminate.
Defined.

(** C3, as stated, fails: a NumMedia value that is not a number does not
    give the error outcome; the message is normalized as a text message and
    the handler goes on to open a session and send the reply. *)
Lemma bad_media_count_is_not_an_error :
  Fixtures.bad_media_count !! "NumMedia" = Some "abc"
  /\ Py.int "abc" = Raise (ValueError "invalid literal for int() with base 10: 'abc'")
  /\ WebhookHandler.process_webhook Fixtures.bad_media_count
     = Ret (WebhookHandler.Success {|
         WebhookHandler.sender_id := "+1555";
         WebhookHandler.message_type := "text";
         WebhookHandler.timestamp := "";
         WebhookHandler.message_sid := "SM4";
         WebhookHandler.account_sid := None;
         WebhookHandler.message_body := "hi";
         WebhookHandler.media_urls := [];
         WebhookHandler.raw_message := {|
           WebhookHandler.raw_from := "+1555";
           WebhookHandler.raw_to := "";
           WebhookHandler.raw_type := "text";
           WebhookHandler.raw_text := Some "hi";
           WebhookHandler.raw_message_sid := "SM4" |} |})
  /\ fst (App.handle_webhook Fixtures.cfg Fixtures.vendors_up
            (Some Fixtures.twilio_client) (Ret Fixtures.bad_media_count) initial_state)
     = Ret {| App.status := "success"; App.message := "Mensagem processada" |}
  /\ log (snd (App.handle_webhook Fixtures.cfg Fixtures.vendors_up
                 (Some Fixtures.twilio_client) (Ret Fixtures.bad_media_count)
                 initial_state))
     = [GenaiClient (Some "key"); ReadPromptFile;
        ChatsCreate "gemini-2.5-flash" GeminiClient.default_system_instruction;
        ChatSendMessage 2 "hi";
        MessagesCreate "re: hi" "whatsapp:+14155238886" "whatsapp:+1555" None].
Proof. repeat (split; [vm_compute; reflexivity |]). vm_compute. reflexivity. Qed.

Lemma failed_media_count_is_zero_witness :
  (exists m,
     WebhookHandler.process_webhook Fixtures.bad_media_count
     = Ret (WebhookHandler.Success m)
     /\ WebhookHandler.media_urls m = []
     /\ WebhookHandler.message_type m = "text"
     /\ WebhookHandler.message_sid m = "SM4")
  /\ WebhookHandler.process_webhook MoreFixtures.bad_media_count_no_ids
     = Ret (WebhookHandler.Ignored "invalid_data").
Proof.
  split.
  - destruct (proj1 (proj2 (failed_media_count_is_zero Fixtures.bad_media_count "abc"
                              (ValueError "invalid literal for int() with base 10: 'abc'")
                              ltac:(vm_compute; reflexivity)
                              ltac:(vm_compute; reflexivity)))
                "SM4" ltac:(vm_compute; reflexivity) ltac:(discriminate)
                ltac:(vm_compute; discriminate))
      as (m & Hp & Hu & Ht & Hs & _).
    exists m. repeat split; assumption.
  - apply (proj1 (failed_media_count_is_zero MoreFixtures.bad_media_count_no_ids "abc"
                    (ValueError "invalid literal for int() with base 10: 'abc'")
                    ltac:(vm_compute; reflexivity) ltac:(vm_compute; reflexivity))).
    left. vm_compute. reflexivity.
Defined.

Lemma missing_ids_ignored_witness :
  Fixtures.empty_message_sid !! "MessageSid" = Some ""
  /\ WebhookHandler.process_webhook Fixtures.empty_message_sid
     = Ret (WebhookHandler.Ignored "invalid_data")
  /\ App.handle_webhook Fixtures.cfg Fixtures.vendors_up (Some Fixtures.twilio_client)
       (Ret Fixtures.empty_message_sid) Fixtures.state_after_first
     = (Ret {| App.status := "success"; App.message := "Evento ignorado" |},
        Fixtures.state_after_first).
Proof.
  assert (H : Fixtures.empty_message_sid !! "MessageSid" = Some "")
    by (vm_compute; reflexivity).
  split; [exact H |].
  apply (missing_ids_ignored Fixtures.cfg Fixtures.vendors_up
           (Some Fixtures.twilio_client) Fixtures.empty_message_sid
           Fixtures.state_after_first).
  right. left. exact H.
Defined.

(** ** The POST handler and the failures of the vendors *)

Section HandleWebhook.
Import WebhookHandler.
Context (cfg : Config) (v : Vendors).

(** The outermost [except Exception] absorbs everything. *)
Lemma handle_webhook_returns
    (tc : option TwilioService.TwilioWhatsAppClient)
    (form : res (gmap string string)) (st : State) :
  exists response st',
    App.handle_webhook cfg v tc form st = (Ret response, st').
Proof.
  unfold App.handle_webhook, catch.
  destruct (bind _ _ st) as [[response | e] st']; [eauto |].
  simpl. unfold ret. eauto.
Qed.

(** One call to the language model: its answer, or its failure raised
    again, and the call logged. *)
Lemma send_message_cases (session : GeminiChatSession) (message : string) (st : State) :
  GeminiClient.send_message v session message st
  = (match chat_send_message v (log st) (chat_handle (chat session)) message with
     | Ret text => Ret (if truthy_opt text then default "" text else "")
     | Raise e => Raise e
     end,
     add_call (ChatSendMessage (chat_handle (chat session)) message) st).
Proof.
  unfold GeminiClient.send_message. unfold_M.
  destruct (chat_send_message v _ _ _); reflexivity.
Qed.

(** The reply the handler goes on with: the answer of the model, or the
    apology. *)
Lemma reply_cases (session : GeminiChatSession) (message : string) (st : State) :
  catch (GeminiClient.send_message v session message)
    [([CException], fun _ => ret App.apology)] st
  = (Ret (match chat_send_message v (log st) (chat_handle (chat session)) message with
          | Ret text => if truthy_opt text then default "" text else ""
          | Raise _ => App.apology
          end),
     add_call (ChatSendMessage (chat_handle (chat session)) message) st).
Proof.
  unfold catch. rewrite send_message_cases.
  destruct (chat_send_message v _ _ _); reflexivity.
Qed.

(** One send: the vendor is called once; its failure comes back as a
    [TwilioMessageError]. *)
Lemma send_text_message_cases (self : TwilioService.TwilioWhatsAppClient)
    (recipient message_body : string) (st : State) :
  let from_number := "whatsapp:" +:+ TwilioService.twilio_whatsapp_number self in
  let to_number := TwilioService.normalize_recipient recipient in
  let st' := add_call (MessagesCreate message_body from_number to_number None) st in
  match messages_create v (log st) message_body from_number to_number None with
  | Ret message =>
      exists result,
        TwilioService.send_text_message v self recipient message_body None st
        = (Ret result, st')
  | Raise e =>
      exists detail,
        TwilioService.send_text_message v self recipient message_body None st
        = (Raise (TwilioMessageError detail), st')
  end.
Proof.
  unfold TwilioService.send_text_message. unfold_M. simpl.
  destruct (messages_create v _ _ _ _ _) as [message | e]; simpl; [eauto |].
  destruct e; simpl; eauto.
Qed.

(** The text branch, once the session is there and the reply is chosen. *)
Lemma handle_text_after_reply (tc : option TwilioService.TwilioWhatsAppClient)
    (sender message_body : string) (st st1 : State) (session : GeminiChatSession)
    (reply : string) (st2 : State) :
  truthy sender = true ->
  GeminiClient.get_or_create_session cfg v sender None st = (Ret session, st1) ->
  catch (GeminiClient.send_message v session message_body)
    [([CException], fun _ => ret App.apology)] st1 = (Ret reply, st2) ->
  App.handle_text cfg v tc (Some sender) message_body st
  = match tc with
    | Some client =>
        match TwilioService.send_text_message v client sender reply None st2 with
        | (Ret _, st3) =>
            (Ret {| App.status := "success"; App.message := "Mensagem processada" |},
             st3)
        | (Raise e, st3) =>
            if isinstance e CTwilioMessageError
            then (Ret {| App.status := "error";
                         App.message := "Falha ao enviar: " +:+ str_exn e |}, st3)
            else (Raise e, st3)
        end
    | None =>
        (Ret {| App.status := "warning"; App.message := "Twilio não disponível" |},
         st2)
    end.
Proof.
  intros Hsender Hget Hreply.
  unfold App.handle_text, App.str_opt. cbn [truthy_opt default from_option id].
  rewrite Hsender. cbn [negb]. unfold Vendor.bind at 1. cbv beta. rewrite Hget.
  unfold Vendor.bind at 1. cbv beta. rewrite Hreply.
  destruct tc as [client |]; [| reflexivity].
  unfold Vendor.bind, Vendor.catch, Vendor.ret.
  destruct (TwilioService.send_text_message v client sender reply None st2)
    as [[result | e] st3]; [reflexivity |].
  cbn [select_handler isinstance_any existsb]. rewrite orb_false_r.
  destruct (isinstance e CTwilioMessageError); reflexivity.
Qed.

Lemma handle_text_cases (tc : option TwilioService.TwilioWhatsAppClient)
    (sender message_body : string) (st st1 : State) (session : GeminiChatSession) :
  truthy sender = true ->
  GeminiClient.get_or_create_session cfg v sender None st = (Ret session, st1) ->
  forall reply st2,
    catch (GeminiClient.send_message v session message_body)
      [([CException], fun _ => ret App.apology)] st1 = (Ret reply, st2) ->
    match tc with
    | None =>
        App.handle_text cfg v tc (Some sender) message_body st
        = (Ret {| App.status := "warning"; App.message := "Twilio não disponível" |},
           st2)
    | Some client =>
        let from_number := "whatsapp:" +:+ TwilioService.twilio_whatsapp_number client in
        let to_number := TwilioService.normalize_recipient sender in
        let st3 := add_call (MessagesCreate reply from_number to_number None) st2 in
        match messages_create v (log st2) reply from_number to_number None with
        | Ret _ =>
            App.handle_text cfg v tc (Some sender) message_body st
            = (Ret {| App.status := "success"; App.message := "Mensagem processada" |},
               st3)
        | Raise _ =>
            exists detail,
              App.handle_text cfg v tc (Some sender) message_body st
              = (Ret {| App.status := "error";
                        App.message := "Falha ao enviar: " +:+ detail |}, st3)
        end
    end.
Proof.
  intros Hsender Hget reply st2 Hreply.
  rewrite (handle_text_after_reply tc _ _ _ _ _ _ _ Hsender Hget Hreply).
  destruct tc as [client |]; [| reflexivity].
  pose proof (send_text_message_cases client sender reply st2) as Hsend.
  cbv zeta in *.
  destruct (messages_create v _ _ _ _ _) as [message | e].
  - destruct Hsend as [result ->]. reflexivity.
  - destruct Hsend as [detail ->]. exists detail. reflexivity.
Qed.

(** The dispatch of a normalized text message with a body. *)
Lemma dispatch_text (tc : option TwilioService.TwilioWhatsAppClient)
    (data : gmap string string) (m : Message) :
  process_webhook data = Ret (Success m) ->
  message_type m = "text" -> message_body m <> "" ->
  truthy (sender_id m) = true
  /\ App.dispatch cfg v tc (Success m)
     = App.handle_text cfg v tc (Some (sender_id m)) (message_body m).
Proof.
  intros Hp Ht Hb. split.
  - destruct (process_webhook_cases data) as [_ [[_ Hi] | [Hf (m' & Hp' & Hs & _)]]];
      [congruence |].
    assert (m' = m) as -> by congruence.
    unfold ids_missing in Hf. apply orb_false_iff in Hf as [_ Hf].
    apply negb_false_iff in Hf. by rewrite Hs.
  - unfold App.dispatch. cbn [status App.get_sender_id App.get_message_type
      App.get_message_body]. rewrite Ht.
    destruct (message_body m); [congruence | reflexivity].
Qed.

Lemma catch_all_Ret (A : Type) (body : M A) (h : exn -> M A)
    (a : A) (st st' : State) :
  body st = (Ret a, st') -> catch body [([CException], h)] st = (Ret a, st').
Proof. intros H. unfold catch. rewrite H. reflexivity. Qed.

(** C6 (as amended): in the text-message path of the POST handler, once the
    session is there,
    - if [send_message] raises, the apology is the reply; when the Twilio
      client is available the handler makes exactly one send, of the
      apology, and returns; when the client is unavailable it returns
      status warning and makes no send;
    - if the send raises [TwilioMessageError], the handler returns status
      error (Falha ao enviar) in the state that single send left, the vendor
      called once and not again;
    - the handler never raises, whatever the form and the state. *)
Theorem vendor_failures_absorbed
    (twilio_client : option TwilioService.TwilioWhatsAppClient)
    (data : gmap string string) (m : Message)
    (st st1 : State) (session : GeminiChatSession) :
  process_webhook data = Ret (Success m) ->
  message_type m = "text" -> message_body m <> "" ->
  GeminiClient.get_or_create_session cfg v (sender_id m) None st = (Ret session, st1) ->
  (forall e st2,
      GeminiClient.send_message v session (message_body m) st1 = (Raise e, st2) ->
      match twilio_client with
      | Some client =>
          exists response,
            App.handle_webhook cfg v twilio_client (Ret data) st
            = (Ret response,
               add_call
                 (MessagesCreate App.apology
                    ("whatsapp:" +:+ TwilioService.twilio_whatsapp_number client)
                    (TwilioService.normalize_recipient (sender_id m)) None)
                 st2)
      | None =>
          App.handle_webhook cfg v twilio_client (Ret data) st
          = (Ret {| App.status := "warning";
                    App.message := "Twilio não disponível" |}, st2)
      end)
  /\ (forall client reply st2 detail st3,
        twilio_client = Some client ->
        catch (GeminiClient.send_message v session (message_body m))
          [([CException], fun _ => ret App.apology)] st1 = (Ret reply, st2) ->
        TwilioService.send_text_message v client (sender_id m) reply None st2
        = (Raise (TwilioMessageError detail), st3) ->
        App.handle_webhook cfg v twilio_client (Ret data) st
        = (Ret {| App.status := "error";
                  App.message := "Falha ao enviar: " +:+ detail |}, st3)
        /\ log st3
           = (log st2
              ++ [MessagesCreate reply
                    ("whatsapp:" +:+ TwilioService.twilio_whatsapp_number client)
                    (TwilioService.normalize_recipient (sender_id m)) None])%list)
  /\ (forall form st0,
        exists response st',
          App.handle_webhook cfg v twilio_client form st0 = (Ret response, st')).
Proof.
  intros Hp Ht Hb Hget.
  destruct (dispatch_text twilio_client data m Hp Ht Hb) as [Hsender Hd].
  split; [| split].
  - intros e st2 Hraise.
    assert (Hreply : catch (GeminiClient.send_message v session (message_body m))
                       [([CException], fun _ => ret App.apology)] st1
                     = (Ret App.apology, st2)).
    { unfold catch. rewrite Hraise. reflexivity. }
    pose proof (handle_text_cases twilio_client _ _ _ _ _ Hsender Hget _ _ Hreply) as Hc.
    rewrite (handle_webhook_dispatch _ _ _ _ _ _ Hp), Hd.
    destruct twilio_client as [client |].
    + cbv zeta in Hc.
      destruct (messages_create v _ _ _ _ _).
      * eexists. apply catch_all_Ret. exact Hc.
      * destruct Hc as [detail Hc]. eexists. apply catch_all_Ret. exact Hc.
    + apply catch_all_Ret. exact Hc.
  - intros client reply st2 detail st3 -> Hreply Hfail. split.
    + rewrite (handle_webhook_dispatch _ _ _ _ _ _ Hp), Hd.
      apply catch_all_Ret.
      rewrite (handle_text_after_reply (Some client) _ _ _ _ _ _ _ Hsender Hget Hreply).
      rewrite Hfail. reflexivity.
    + pose proof (send_text_message_cases client (sender_id m) reply st2) as Hsend.
      cbv zeta in Hsend.
      destruct (messages_create v _ _ _ _ _);
        destruct Hsend as [x Hsend]; rewrite Hsend in Hfail; [discriminate |].
      injection Hfail as _ <-. reflexivity.
  - intros form st0. apply handle_webhook_returns.
Qed.

End HandleWebhook.

(** C6, as stated, fails: when the Twilio client could not be built at
    start-up, a failure of the language model is followed by no send at all;
    the handler answers with status warning. *)
Lemma apology_not_sent_without_twilio_client :
  App.make_twilio_client Fixtures.cfg Fixtures.vendors_no_twilio_client initial_state
  = (Ret None, add_call (TwilioRestClient "AC1" "token") initial_state)
  /\ WebhookHandler.process_webhook Fixtures.text_message
     = Ret (WebhookHandler.Success Fixtures.text_message_normalized)
  /\ (forall l handle message,
        chat_send_message Fixtures.vendors_no_twilio_client l handle message
        = Raise (OtherException "ServerError" "503 UNAVAILABLE"))
  /\ fst (App.handle_webhook Fixtures.cfg Fixtures.vendors_no_twilio_client None
            (Ret Fixtures.text_message)
            (add_call (TwilioRestClient "AC1" "token") initial_state))
     = Ret {| App.status := "warning"; App.message := "Twilio não disponível" |}
  /\ log (snd (App.handle_webhook Fixtures.cfg Fixtures.vendors_no_twilio_client None
                 (Ret Fixtures.text_message)
                 (add_call (TwilioRestClient "AC1" "token") initial_state)))
     = [TwilioRestClient "AC1" "token"; GenaiClient (Some "key"); ReadPromptFile;
        ChatsCreate "gemini-2.5-flash" GeminiClient.default_system_instruction;
        ChatSendMessage 3 "hello"].
Proof.
  split; [vm_compute; reflexivity |].
  split; [vm_compute; reflexivity |].
  split; [reflexivity |].
  split; vm_compute; reflexivity.
Qed.

Lemma vendor_failures_absorbed_witness :
  exists response,
    App.handle_webhook Fixtures.cfg Fixtures.vendors_gemini_down
      (Some Fixtures.twilio_client) (Ret Fixtures.text_message) initial_state
    = (Ret response,
       add_call
         (MessagesCreate App.apology "whatsapp:+14155238886" "whatsapp:+15551234567" None)
         (add_call (ChatSendMessage 2 "hello") Fixtures.state_after_first)).
Proof.
  apply (proj1 (vendor_failures_absorbed Fixtures.cfg Fixtures.vendors_gemini_down
                  (Some Fixtures.twilio_client) Fixtures.text_message
                  Fixtures.text_message_normalized initial_state
                  Fixtures.state_after_first Fixtures.first_session
                  ltac:(vm_compute; reflexivity) ltac:(reflexivity)
                  ltac:(discriminate) ltac:(vm_compute; reflexivity))
           (OtherException "ServerError" "503 UNAVAILABLE")
           (add_call (ChatSendMessage 2 "hello") Fixtures.state_after_first)).
  vm_compute. reflexivity.
Defined.

(** ** The handlers on the scenarios of the design document *)

Example text_message_is_normalized :
  WebhookHandler.process_webhook Fixtures.text_message
  = Ret (WebhookHandler.Success Fixtures.text_message_normalized).
Proof. vm_compute. reflexivity. Qed.

Example text_message_is_answered :
  App.handle_webhook Fixtures.cfg Fixtures.vendors_up (Some Fixtures.twilio_client)
    (Ret Fixtures.text_message) initial_state
  = (Ret {| App.status := "success"; App.message := "Mensagem processada" |},
     add_call
       (MessagesCreate "re: hello" "whatsapp:+14155238886" "whatsapp:+15551234567" None)
       (add_call (ChatSendMessage 2 "hello") Fixtures.state_after_first)).
Proof. vm_compute. reflexivity. Qed.

Example refused_send_is_reported_once :
  App.handle_webhook Fixtures.cfg Fixtures.vendors_twilio_down
    (Some Fixtures.twilio_client) (Ret Fixtures.text_message) initial_state
  = (Ret {| App.status := "error";
            App.message := "Falha ao enviar: Erro Twilio 400: Bad Request" |},
     add_call
       (MessagesCreate "re: hello" "whatsapp:+14155238886" "whatsapp:+15551234567" None)
       (add_call (ChatSendMessage 2 "hello") Fixtures.state_after_first)).
Proof. vm_compute. reflexivity. Qed.

Example media_message_is_acknowledged :
  App.handle_webhook Fixtures.cfg Fixtures.vendors_up (Some Fixtures.twilio_client)
    (Ret Fixtures.media_message) initial_state
  = (Ret {| App.status := "success"; App.message := "Mídia recebida" |}, initial_state).
Proof. vm_compute. reflexivity. Qed.

Example unreadable_form_is_absorbed :
  App.handle_webhook Fixtures.cfg Fixtures.vendors_up (Some Fixtures.twilio_client)
    (Raise (OtherException "ClientDisconnect" "")) initial_state
  = (Ret {| App.status := "error"; App.message := "Erro crítico: " |}, initial_state).
Proof. vm_compute. reflexivity. Qed.


(** * Further properties of the code *)

(** ** Start-up *)

Section StartupFacts.
Import Startup.

Lemma truthy_opt_true (o : option string) :
  truthy_opt o = true <-> exists s, o = Some s /\ s <> "".
Proof.
  destruct o as [[| c s] |]; simpl; split; try discriminate.
  - intros (s & [= <-] & H). congruence.
  - intros _. eexists. split; [reflexivity | discriminate].
  - intros _. reflexivity.
  - intros (s & H & _). discriminate.
Qed.

Lemma validate_ok_iff (cfg : Config) :
  validate cfg = Ret tt
  <-> truthy_opt (VERIFY_TOKEN cfg) = true
      /\ truthy_opt (GEMINI_API_KEY cfg) = true
      /\ truthy_opt (TWILIO_ACCOUNT_SID cfg) = true
      /\ truthy_opt (TWILIO_AUTH_TOKEN cfg) = true
      /\ truthy_opt (TWILIO_WHATSAPP_NUMBER cfg) = true.
Proof.
  unfold validate, missing_vars, required_vars. cbn [List.filter snd].
  destruct (truthy_opt (VERIFY_TOKEN cfg)), (truthy_opt (GEMINI_API_KEY cfg)),
    (truthy_opt (TWILIO_ACCOUNT_SID cfg)), (truthy_opt (TWILIO_AUTH_TOKEN cfg)),
    (truthy_opt (TWILIO_WHATSAPP_NUMBER cfg)); cbn [negb map fst];
    split; intros H; try discriminate H; try reflexivity;
    try (repeat split; reflexivity); destruct H as (? & ? & ? & ? & ?);
    discriminate.
Qed.

Lemma validate_raises_OSError (cfg : Config) (e : exn) :
  validate cfg = Raise e -> exists msg, e = OtherException "OSError" msg.
Proof.
  unfold validate. destruct (missing_vars cfg); [discriminate |].
  intros [= <-]. eauto.
Qed.

(** X1: [Config.validate] returns normally exactly when the five required
    values are all set and non-empty.  Otherwise it raises an [OSError]
    whose message lists, separated by a comma and a space and in the order
    of the declaration, exactly the required names whose value is unset or
    empty, between the fixed opening and closing sentences.  A configuration
    it accepts also passes [validate_twilio]. *)
Theorem validate_accepts_complete_configurations (cfg : Config) :
  let reported :=
    ((if truthy_opt (VERIFY_TOKEN cfg) then [] else ["VERIFY_TOKEN"])
     ++ (if truthy_opt (GEMINI_API_KEY cfg) then [] else ["GEMINI_API_KEY"])
     ++ (if truthy_opt (TWILIO_ACCOUNT_SID cfg) then [] else ["TWILIO_ACCOUNT_SID"])
     ++ (if truthy_opt (TWILIO_AUTH_TOKEN cfg) then [] else ["TWILIO_AUTH_TOKEN"])
     ++ (if truthy_opt (TWILIO_WHATSAPP_NUMBER cfg) then []
         else ["TWILIO_WHATSAPP_NUMBER"]))%list in
  (validate cfg = Ret tt
   <-> truthy_opt (VERIFY_TOKEN cfg) = true
       /\ truthy_opt (GEMINI_API_KEY cfg) = true
       /\ truthy_opt (TWILIO_ACCOUNT_SID cfg) = true
       /\ truthy_opt (TWILIO_AUTH_TOKEN cfg) = true
       /\ truthy_opt (TWILIO_WHATSAPP_NUMBER cfg) = true)
  /\ validate cfg
     = match reported with
       | [] => Ret tt
       | _ :: _ =>
           Raise (OtherException "OSError"
                    ("Variáveis de ambiente obrigatórias não configuradas: "
                     +:+ join ", " reported +:+ ". "
                     +:+ "Verifique o arquivo .env e a instalação do python-dotenv."))
       end
  /\ (reported <> [] ->
      validate cfg
      = Raise (OtherException "OSError"
                 ("Variáveis de ambiente obrigatórias não configuradas: "
                  +:+ join ", " reported +:+ ". "
                  +:+ "Verifique o arquivo .env e a instalação do python-dotenv.")))
  /\ (validate cfg = Ret tt -> validate_twilio cfg = true).
Proof.
  cbv zeta.
  assert (Heq : validate cfg
     = match
         ((if truthy_opt (VERIFY_TOKEN cfg) then [] else ["VERIFY_TOKEN"])
          ++ (if truthy_opt (GEMINI_API_KEY cfg) then [] else ["GEMINI_API_KEY"])
          ++ (if truthy_opt (TWILIO_ACCOUNT_SID cfg) then [] else ["TWILIO_ACCOUNT_SID"])
          ++ (if truthy_opt (TWILIO_AUTH_TOKEN cfg) then [] else ["TWILIO_AUTH_TOKEN"])
          ++ (if truthy_opt (TWILIO_WHATSAPP_NUMBER cfg) then []
              else ["TWILIO_WHATSAPP_NUMBER"]))%list
       with
       | [] => Ret tt
       | _ :: _ =>
           Raise (OtherException "OSError"
                    ("Variáveis de ambiente obrigatórias não configuradas: "
                     +:+ join ", "
                           ((if truthy_opt (VERIFY_TOKEN cfg) then [] else ["VERIFY_TOKEN"])
                            ++ (if truthy_opt (GEMINI_API_KEY cfg) then []
                                else ["GEMINI_API_KEY"])
                            ++ (if truthy_opt (TWILIO_ACCOUNT_SID cfg) then []
                                else ["TWILIO_ACCOUNT_SID"])
                            ++ (if truthy_opt (TWILIO_AUTH_TOKEN cfg) then []
                                else ["TWILIO_AUTH_TOKEN"])
                            ++ (if truthy_opt (TWILIO_WHATSAPP_NUMBER cfg) then []
                                else ["TWILIO_WHATSAPP_NUMBER"]))%list
                     +:+ ". "
                     +:+ "Verifique o arquivo .env e a instalação do python-dotenv."))
       end).
  { unfold validate, missing_vars, required_vars. cbn [List.filter snd].
    destruct (truthy_opt (VERIFY_TOKEN cfg)), (truthy_opt (GEMINI_API_KEY cfg)),
      (truthy_opt (TWILIO_ACCOUNT_SID cfg)), (truthy_opt (TWILIO_AUTH_TOKEN cfg)),
      (truthy_opt (TWILIO_WHATSAPP_NUMBER cfg)); reflexivity. }
  split; [apply validate_ok_iff |]. split; [exact Heq |]. split.
  - intros Hne. rewrite Heq.
    destruct (_ ++ _)%list; [congruence | reflexivity].
  - intros H. apply validate_ok_iff in H as (_ & _ & H1 & H2 & H3).
    unfold validate_twilio. by rewrite H1, H2, H3.
Qed.

(** X2: when [Config.validate] accepts the configuration, start-up never
    raises: it asks the vendor for a Twilio client exactly once, with the
    configured account id and token, and [twilio_client] is [None] exactly
    when that constructor raised.  When [Config.validate] refuses the
    configuration, start-up raises a [RuntimeError] and calls no vendor. *)
Theorem startup_outcomes (cfg : Config) (v : Vendors) (st : State) :
  (validate cfg = Ret tt ->
     exists sid token number,
       TWILIO_ACCOUNT_SID cfg = Some sid
       /\ TWILIO_AUTH_TOKEN cfg = Some token
       /\ TWILIO_WHATSAPP_NUMBER cfg = Some number
       /\ startup cfg v st
          = (match twilio_rest_client v (log st) sid token with
             | Ret _ =>
                 Ret (Some {| TwilioService.account_sid := sid;
                              TwilioService.auth_token := token;
                              TwilioService.twilio_whatsapp_number := number |})
             | Raise _ => Ret None
             end,
             add_call (TwilioRestClient sid token) (set_sessions ∅ st)))
  /\ (forall e, validate cfg = Raise e ->
        exists msg,
          startup cfg v st = (Raise (OtherException "RuntimeError" msg), st)).
Proof.
  split.
  - intros Hv.
    pose proof (proj1 (validate_ok_iff cfg) Hv) as (_ & _ & H1 & H2 & H3).
    apply truthy_opt_true in H1 as (sid & Es & Hs).
    apply truthy_opt_true in H2 as (token & Et & Ht).
    apply truthy_opt_true in H3 as (number & En & Hn).
    exists sid, token, number. repeat split; try assumption.
    unfold startup. rewrite Hv.
    unfold App.make_twilio_client, TwilioService.TwilioWhatsAppClient_init,
      TwilioService.opt_or.
    rewrite Es, Et, En.
    destruct sid as [| c1 sid]; [congruence |].
    destruct token as [| c2 token]; [congruence |].
    destruct number as [| c3 number]; [congruence |].
    cbn [truthy_opt truthy andb negb default from_option id].
    unfold_M. cbn [log set_sessions].
    destruct (twilio_rest_client v _ _ _) as [[] | e]; reflexivity.
  - intros e He.
    destruct (validate_raises_OSError cfg e He) as [msg ->].
    unfold startup. rewrite He. cbn. unfold raise. eauto.
Qed.

End StartupFacts.

Lemma validate_accepts_complete_configurations_witness :
  Startup.validate MoreFixtures.cfg_incomplete
  = Raise (OtherException "OSError"
             ("Variáveis de ambiente obrigatórias não configuradas: "
              +:+ "GEMINI_API_KEY, TWILIO_AUTH_TOKEN" +:+ ". "
              +:+ "Verifique o arquivo .env e a instalação do python-dotenv."))
  /\ Startup.validate Fixtures.cfg = Ret tt.
Proof.
  split.
  - pose proof (validate_accepts_complete_configurations MoreFixtures.cfg_incomplete)
      as H.
    cbv zeta in H. destruct H as (_ & _ & H & _).
    rewrite H; [reflexivity | discriminate].
  - apply (proj1 (validate_accepts_complete_configurations Fixtures.cfg)).
    repeat split.
Defined.

Lemma startup_outcomes_witness :
  Startup.validate Fixtures.cfg = Ret tt
  /\ (exists client,
        Startup.startup Fixtures.cfg Fixtures.vendors_up initial_state
        = (Ret (Some client), add_call (TwilioRestClient "AC1" "token") initial_state))
  /\ Startup.missing_vars MoreFixtures.cfg_incomplete
     = ["GEMINI_API_KEY"; "TWILIO_AUTH_TOKEN"]
  /\ exists msg,
       Startup.startup MoreFixtures.cfg_incomplete Fixtures.vendors_up initial_state
       = (Raise (OtherException "RuntimeError" msg), initial_state).
Proof.
  split; [reflexivity |]. split; [| split; [reflexivity |]].
  - destruct (proj1 (startup_outcomes Fixtures.cfg Fixtures.vendors_up initial_state)
                eq_refl) as (sid & token & number & Es & Et & En & H).
    injection Es as <-. injection Et as <-. injection En as <-.
    eexists. rewrite H. vm_compute. reflexivity.
  - destruct (Startup.validate MoreFixtures.cfg_incomplete) as [u | e] eqn:E;
      [vm_compute in E; discriminate E |].
    exact (proj2 (startup_outcomes MoreFixtures.cfg_incomplete Fixtures.vendors_up
                    initial_state) e E).
Defined.

(** ** Webhook authenticity check, continued *)

Section VerifyWebhookMore.
Import WebhookHandler.

Lemma verify_webhook_cases (cfg : Config) (r : Request) :
  (exists text, verify_webhook cfg r = Ret text /\ text <> "")
  \/ verify_webhook cfg r
     = Raise (HTTPException 403 "Token de verificação inválido ou ausente").
Proof.
  unfold verify_webhook.
  destruct (truthy_opt (headers_get r "X-Twilio-Signature")).
  - left. eexists. split; [reflexivity | discriminate].
  - destruct (option_string_eqb _ _); [| right; reflexivity].
    left. eexists. split; [reflexivity |].
    unfold str_or. destruct (default "" _); simpl; discriminate.
Qed.

(** X3: the verification endpoint has two outcomes only: a 200 plain-text
    response whose body is never empty, or the [HTTPException] of status
    403; the branch that answers 500 is never taken. *)
Theorem verify_webhook_endpoint_outcomes (cfg : Config) (r : Request) :
  (exists text,
     App.verify_webhook_endpoint cfg r
     = Ret {| App.content := text; App.status_code := 200 |}
     /\ text <> "")
  \/ App.verify_webhook_endpoint cfg r
     = Raise (HTTPException 403 "Token de verificação inválido ou ausente").
Proof.
  unfold App.verify_webhook_endpoint.
  destruct (verify_webhook_cases cfg r) as [(text & -> & Hne) | ->].
  - left. exists text. split; [reflexivity | exact Hne].
  - right. reflexivity.
Qed.

(** X4: a verification request with no usable signature header and no
    hub.verify_token parameter is denied with 403 exactly when a secret is
    configured; with [VERIFY_TOKEN] unset it is approved with "ok" (the
    comparison is [None == None]).  A configuration [Config.validate]
    accepts has a secret, so there the request is denied. *)
Theorem verify_webhook_without_credentials (cfg : Config) (r : Request) :
  truthy_opt (headers_get r "X-Twilio-Signature") = false ->
  query_params_get r "hub.verify_token" = None ->
  (VERIFY_TOKEN cfg <> None ->
     verify_webhook cfg r
     = Raise (HTTPException 403 "Token de verificação inválido ou ausente"))
  /\ (VERIFY_TOKEN cfg = None ->
      exists text, verify_webhook cfg r = Ret text /\ text <> "")
  /\ (Startup.validate cfg = Ret tt ->
      verify_webhook cfg r
      = Raise (HTTPException 403 "Token de verificação inválido ou ausente")).
Proof.
  intros Hsig Htok.
  rewrite (verify_webhook_unsigned cfg r Hsig), Htok.
  assert (Hset : VERIFY_TOKEN cfg <> None ->
                 (if option_string_eqb None (VERIFY_TOKEN cfg)
                  then Ret (str_or (default "" (query_params_get r "hub.challenge")) "ok")
                  else Raise (HTTPException 403
                                "Token de verificação inválido ou ausente"))
                 = Raise (HTTPException 403 "Token de verificação inválido ou ausente")).
  { intros Hne. destruct (VERIFY_TOKEN cfg); [reflexivity | congruence]. }
  split; [exact Hset |]. split.
  - intros ->. simpl. eexists. split; [reflexivity |].
    unfold str_or. destruct (default "" _); simpl; discriminate.
  - intros Hv. apply Hset. apply validate_ok_iff in Hv as (Hv & _).
    destruct (VERIFY_TOKEN cfg); [discriminate | discriminate Hv].
Qed.

End VerifyWebhookMore.

Lemma verify_webhook_without_credentials_witness :
  WebhookHandler.verify_webhook Fixtures.cfg MoreFixtures.bare_request
  = Raise (HTTPException 403 "Token de verificação inválido ou ausente")
  /\ exists text,
       WebhookHandler.verify_webhook MoreFixtures.cfg_no_secret MoreFixtures.bare_request
       = Ret text /\ text <> "".
Proof.
  split.
  - apply (proj1 (verify_webhook_without_credentials Fixtures.cfg
                    MoreFixtures.bare_request eq_refl eq_refl)).
    discriminate.
  - apply (proj1 (proj2 (verify_webhook_without_credentials MoreFixtures.cfg_no_secret
                           MoreFixtures.bare_request eq_refl eq_refl))).
    reflexivity.
Defined.

(** ** Webhook normalizer, continued *)

Section ProcessWebhookMore.
Import WebhookHandler.

Lemma length_omap_le {A B : Type} (f : A -> option B) (l : list A) :
  (length (omap f l) <= length l)%nat.
Proof.
  induction l as [| a l IH]; [reflexivity |].
  change (omap f (a :: l))
    with (match f a with Some y => y :: omap f l | None => omap f l end).
  destruct (f a); simpl; lia.
Qed.

Lemma collect_media_fold (data : gmap string string) (n : Z) :
  collect_media data n = fold_left (media_step data) (range n) [].
Proof.
  unfold collect_media, range. destruct (0 <? n) eqn:E; [reflexivity |].
  apply Z.ltb_ge in E. replace (Z.to_nat n) with O by lia. reflexivity.
Qed.

Lemma collect_media_omap (data : gmap string string) (n : Z) :
  collect_media data n = Spec.present_media_urls data (Z.to_nat n).
Proof.
  rewrite collect_media_fold. unfold range. rewrite fold_media_step. reflexivity.
Qed.

(** What is collected comes from a field below the count, and is not
    empty. *)
Lemma collect_media_elem (data : gmap string string) (n : Z) (u : string) :
  u ∈ collect_media data n ->
  exists i, (i < Z.to_nat n)%nat
            /\ data !! ("MediaUrl" +:+ pretty i) = Some u /\ u <> "".
Proof.
  rewrite collect_media_omap. unfold Spec.present_media_urls.
  intros H. apply list_elem_of_omap in H as (i & Hi & Hp).
  exists i. apply elem_of_seq in Hi. split; [lia |].
  unfold Spec.present_media_url in Hp.
  destruct (data !! _) as [url |]; [| discriminate].
  destruct url; simpl in Hp; [discriminate |].
  injection Hp as <-. split; [reflexivity | discriminate].
Qed.

Lemma collect_media_length (data : gmap string string) (n : Z) :
  (length (collect_media data n) <= Z.to_nat n)%nat.
Proof.
  rewrite collect_media_omap. unfold Spec.present_media_urls.
  etransitivity; [apply length_omap_le |]. by rewrite length_seq.
Qed.

(** A normalized message, field by field. *)
Lemma process_webhook_success (data : gmap string string) (m : Message) :
  process_webhook data = Ret (Success m) ->
  ids_missing data = false
  /\ m = {| sender_id := strip_whatsapp (default "" (data !! "From"));
            message_type := if negb (bool_decide (collect_media data (Inv.media_count data) = []))
                            then "media" else "text";
            timestamp := default "" (data !! "Timestamp");
            message_sid := default "" (data !! "MessageSid");
            account_sid := data !! "AccountSid";
            message_body := default "" (data !! "Body");
            media_urls := collect_media data (Inv.media_count data);
            raw_message := {|
              raw_from := strip_whatsapp (default "" (data !! "From"));
              raw_to := strip_whatsapp (default "" (data !! "To"));
              raw_type := if negb (bool_decide (collect_media data (Inv.media_count data) = []))
                          then "media" else "text";
              raw_text :=
                if String.eqb
                     (if negb (bool_decide (collect_media data (Inv.media_count data) = []))
                      then "media" else "text") "text"
                then Some (default "" (data !! "Body")) else None;
              raw_message_sid := default "" (data !! "MessageSid") |} |}.
Proof.
  unfold process_webhook, process_webhook_body, ids_missing, Inv.media_count.
  rewrite num_media_of_total. cbn [Py.bind].
  destruct (negb (truthy_opt (data !! "MessageSid"))
            || negb (truthy (strip_whatsapp (default "" (data !! "From"))))) eqn:E.
  - discriminate.
  - cbn [try_except]. intros [= <-]. split; reflexivity.
Qed.

(** X5: every normalized message [process_webhook] returns has a non-empty
    sender id and message id (the id of the delivery), is of type media
    exactly when it carries at least one media URL and of type text
    otherwise, carries no empty media URL, and its raw_message repeats the
    sender, the type and the message id, with the text body present exactly
    for a text message. *)
Theorem normalized_message_wellformed (data : gmap string string) (m : Message) :
  process_webhook data = Ret (Success m) ->
  sender_id m <> "" /\ message_sid m <> ""
  /\ data !! "MessageSid" = Some (message_sid m)
  /\ ((message_type m = "media" /\ media_urls m <> [])
      \/ (message_type m = "text" /\ media_urls m = []))
  /\ Forall (fun u => u <> "") (media_urls m)
  /\ raw_from (raw_message m) = sender_id m
  /\ raw_type (raw_message m) = message_type m
  /\ raw_message_sid (raw_message m) = message_sid m
  /\ raw_text (raw_message m)
     = (if String.eqb (message_type m) "text" then Some (message_body m) else None).
Proof.
  intros H. apply process_webhook_success in H as [Hids ->].
  cbn [sender_id message_sid message_type media_urls raw_message raw_from raw_type
       raw_message_sid raw_text message_body].
  unfold ids_missing in Hids. apply orb_false_iff in Hids as [H1 H2].
  apply negb_false_iff in H1, H2.
  split. { intros E. rewrite E in H2. discriminate. }
  destruct (data !! "MessageSid") as [sid |]; [| discriminate].
  simpl in H1. cbn [default from_option id].
  split. { intros ->. discriminate. }
  split; [reflexivity |].
  split. { case_bool_decide; [right | left]; split; cbn [negb]; done. }
  split; [| done].
  apply Forall_forall. intros u Hu.
  apply collect_media_elem in Hu as (_ & _ & _ & Hne). exact Hne.
Qed.

(** X6: the media count bounds what is collected.  Without a NumMedia field
    the message has no media URL and is a text message, whatever MediaUrl
    fields are there; with a count n the message carries at most n URLs,
    each the value of a field MediaUrl<i> with i < n, and none when n is
    zero or negative. *)
Theorem media_count_bounds_media_urls (data : gmap string string) (m : Message) :
  process_webhook data = Ret (Success m) ->
  (data !! "NumMedia" = None -> media_urls m = [] /\ message_type m = "text")
  /\ (forall s n,
        data !! "NumMedia" = Some s -> Py.int s = Ret n ->
        (length (media_urls m) <= Z.to_nat n)%nat
        /\ (n <= 0 -> media_urls m = [] /\ message_type m = "text")
        /\ (forall u, u ∈ media_urls m ->
              exists i, (i < Z.to_nat n)%nat
                        /\ data !! ("MediaUrl" +:+ pretty i) = Some u)).
Proof.
  intros H. apply process_webhook_success in H as [_ ->].
  cbn [media_urls message_type]. unfold Inv.media_count. split.
  - intros ->. cbn [default from_option id].
    replace (Py.int "0") with (Ret (A:=Z) 0) by (vm_compute; reflexivity).
    rewrite collect_media_nonpositive by lia. split; reflexivity.
  - intros s n -> Hint. cbn [default from_option id]. rewrite Hint.
    split; [apply collect_media_length |]. split.
    + intros Hn. rewrite collect_media_nonpositive by exact Hn. split; reflexivity.
    + intros u Hu. apply collect_media_elem in Hu as (i & Hi & Hd & _). eauto.
Qed.

End ProcessWebhookMore.

Lemma normalized_message_wellformed_witness :
  exists m,
    WebhookHandler.process_webhook Fixtures.media_message
    = Ret (WebhookHandler.Success m)
    /\ WebhookHandler.sender_id m <> ""
    /\ WebhookHandler.raw_text (WebhookHandler.raw_message m)
       = (if String.eqb (WebhookHandler.message_type m) "text"
          then Some (WebhookHandler.message_body m) else None).
Proof.
  destruct (WebhookHandler.process_webhook Fixtures.media_message) as [[t | d | m] | e] eqn:E;
    try (vm_compute in E; discriminate E).
  exists m. split; [reflexivity |].
  pose proof (normalized_message_wellformed Fixtures.media_message m E)
    as (H1 & _ & _ & _ & _ & _ & _ & _ & H2).
  split; [exact H1 | exact H2].
Defined.

Lemma media_count_bounds_media_urls_witness :
  exists m,
    WebhookHandler.process_webhook MoreFixtures.sparse_media
    = Ret (WebhookHandler.Success m)
    /\ (length (WebhookHandler.media_urls m) <= 3)%nat.
Proof.
  destruct (WebhookHandler.process_webhook MoreFixtures.sparse_media)
    as [[t | d | m] | e] eqn:E; try (vm_compute in E; discriminate E).
  exists m. split; [reflexivity |].
  apply (proj1 (proj2 (media_count_bounds_media_urls MoreFixtures.sparse_media m E)
                  "3" 3 ltac:(vm_compute; reflexivity) ltac:(vm_compute; reflexivity))).
Defined.

(** The deliveries [sparse_media] and [urls_without_count], evaluated. *)
Example sparse_media_collects_present_fields :
  exists m,
    WebhookHandler.process_webhook MoreFixtures.sparse_media
    = Ret (WebhookHandler.Success m)
    /\ WebhookHandler.media_urls m = ["http://c"]
    /\ WebhookHandler.message_type m = "media".
Proof. eexists. split; [vm_compute; reflexivity |]. split; reflexivity. Qed.

Example urls_without_count_are_dropped :
  exists m,
    WebhookHandler.process_webhook MoreFixtures.urls_without_count
    = Ret (WebhookHandler.Success m)
    /\ WebhookHandler.media_urls m = []
    /\ WebhookHandler.message_type m = "text".
Proof. eexists. split; [vm_compute; reflexivity |]. split; reflexivity. Qed.

(** ** The second normalizer, [parse_incoming_webhook] *)

Section ParseIncoming.
Import WebhookHandler.

(** [parse_incoming_webhook] in one equation. *)
Lemma parse_incoming_webhook_cases (data : gmap string string) :
  TwilioMore.parse_incoming_webhook data
  = match TwilioMore.num_media data with
    | Raise e =>
        Raise (TwilioMessageError ("Erro ao processar webhook: " +:+ str_exn e))
    | Ret n =>
        if negb (truthy_opt (data !! "MessageSid"))
           || negb (truthy (replace (default "" (data !! "From")) "whatsapp:" ""))
        then Raise (TwilioMessageError "Dados de mensagem incompletos no webhook")
        else
          Ret {| TwilioMore.status := "success";
                 TwilioMore.message_sid := default "" (data !! "MessageSid");
                 TwilioMore.account_sid := data !! "AccountSid";
                 TwilioMore.sender_id := replace (default "" (data !! "From")) "whatsapp:" "";
                 TwilioMore.message_type :=
                   if bool_decide (fold_left (media_step data) (range n) [] = [])
                   then "text" else "media";
                 TwilioMore.message_body := default "" (data !! "Body");
                 TwilioMore.media_urls := fold_left (media_step data) (range n) [];
                 TwilioMore.timestamp := default "" (data !! "Timestamp");
                 TwilioMore.raw_webhook := data |}
    end.
Proof.
  unfold TwilioMore.parse_incoming_webhook.
  destruct (TwilioMore.num_media data) as [n | e] eqn:E; cbn [Py.bind].
  - destruct (negb _ || negb _); reflexivity.
  - assert (Hv : exists msg, e = ValueError msg).
    { unfold TwilioMore.num_media in E.
      destruct (data !! "NumMedia") as [s |]; [| discriminate].
      eapply int_raises_ValueError; eauto. }
    destruct Hv as [msg ->]. reflexivity.
Qed.

(** X7: [parse_incoming_webhook] fails by raising [TwilioMessageError] and
    nothing else.  A NumMedia value that [int] refuses makes it raise (where
    [process_webhook] counts it as zero), even when the ids are missing too;
    with a valid count, a missing or empty message id or sender id makes it
    raise the incomplete-data error. *)
Theorem parse_incoming_webhook_errors (data : gmap string string) :
  (forall e, TwilioMore.parse_incoming_webhook data = Raise e ->
     exists msg, e = TwilioMessageError msg)
  /\ (forall s e, data !! "NumMedia" = Some s -> Py.int s = Raise e ->
        TwilioMore.parse_incoming_webhook data
        = Raise (TwilioMessageError ("Erro ao processar webhook: " +:+ str_exn e)))
  /\ (forall n, TwilioMore.num_media data = Ret n ->
        data !! "MessageSid" = None \/ data !! "MessageSid" = Some ""
        \/ replace (default "" (data !! "From")) "whatsapp:" "" = "" ->
        TwilioMore.parse_incoming_webhook data
        = Raise (TwilioMessageError "Dados de mensagem incompletos no webhook")).
Proof.
  rewrite parse_incoming_webhook_cases. split; [| split].
  - intros e. destruct (TwilioMore.num_media data); [| intros [= <-]; eauto].
    destruct (negb _ || negb _); [intros [= <-]; eauto | discriminate].
  - intros s e Hs Hi. unfold TwilioMore.num_media. rewrite Hs, Hi. reflexivity.
  - intros n -> H.
    replace (negb (truthy_opt (data !! "MessageSid"))
             || negb (truthy (replace (default "" (data !! "From")) "whatsapp:" "")))
      with true; [reflexivity |].
    symmetry. destruct H as [-> | [-> | ->]]; simpl; try reflexivity.
    apply orb_true_r.
Qed.

Lemma strip_whatsapp_prefixed (number : string) :
  startswith number "whatsapp:" = true ->
  strip_whatsapp number = replace number "whatsapp:" "".
Proof. intros H. unfold strip_whatsapp. rewrite H. reflexivity. Qed.

(** X8: on a delivery whose From carries the transport prefix and whose
    NumMedia is absent or numeric, the two normalizers agree: when
    [process_webhook] returns a normalized message,
    [parse_incoming_webhook] returns a record with the same sender id,
    message id, account id, type, body, media URLs and timestamp. *)
Theorem normalizers_agree (data : gmap string string) (m : Message) (n : Z) :
  startswith (default "" (data !! "From")) "whatsapp:" = true ->
  TwilioMore.num_media data = Ret n ->
  process_webhook data = Ret (Success m) ->
  exists p,
    TwilioMore.parse_incoming_webhook data = Ret p
    /\ TwilioMore.sender_id p = sender_id m
    /\ TwilioMore.message_sid p = message_sid m
    /\ TwilioMore.account_sid p = account_sid m
    /\ TwilioMore.message_type p = message_type m
    /\ TwilioMore.message_body p = message_body m
    /\ TwilioMore.media_urls p = media_urls m
    /\ TwilioMore.timestamp p = timestamp m
    /\ TwilioMore.raw_webhook p = data.
Proof.
  intros Hpre Hnum Hp. apply process_webhook_success in Hp as [Hids ->].
  rewrite parse_incoming_webhook_cases, Hnum.
  unfold ids_missing in Hids. rewrite (strip_whatsapp_prefixed _ Hpre) in *.
  rewrite Hids.
  assert (Hn : Inv.media_count data = n).
  { unfold Inv.media_count, TwilioMore.num_media in *.
    destruct (data !! "NumMedia") as [s |]; cbn [default from_option id].
    - by rewrite Hnum.
    - injection Hnum as <-. vm_compute. reflexivity. }
  rewrite Hn, collect_media_fold.
  eexists. split; [reflexivity |].
  cbn [TwilioMore.sender_id TwilioMore.message_sid TwilioMore.account_sid
       TwilioMore.message_type TwilioMore.message_body TwilioMore.media_urls
       TwilioMore.timestamp TwilioMore.raw_webhook sender_id message_sid account_sid
       message_type message_body media_urls timestamp].
  repeat split. by case_bool_decide.
Qed.

End ParseIncoming.

Lemma parse_incoming_webhook_errors_witness :
  TwilioMore.parse_incoming_webhook Fixtures.bad_media_count
  = Raise (TwilioMessageError
             "Erro ao processar webhook: invalid literal for int() with base 10: 'abc'")
  /\ TwilioMore.parse_incoming_webhook Fixtures.empty_message_sid
     = Raise (TwilioMessageError "Dados de mensagem incompletos no webhook").
Proof.
  split.
  - apply (proj1 (proj2 (parse_incoming_webhook_errors Fixtures.bad_media_count))
             "abc" (ValueError "invalid literal for int() with base 10: 'abc'"));
      vm_compute; reflexivity.
  - apply (proj2 (proj2 (parse_incoming_webhook_errors Fixtures.empty_message_sid)) 0).
    + vm_compute. reflexivity.
    + right. left. vm_compute. reflexivity.
Defined.

Lemma normalizers_agree_witness :
  exists p,
    TwilioMore.parse_incoming_webhook Fixtures.media_message = Ret p
    /\ TwilioMore.sender_id p = "+1555"
    /\ TwilioMore.media_urls p = ["http://a"; "http://b"].
Proof.
  destruct (WebhookHandler.process_webhook Fixtures.media_message)
    as [[t | d | m] | e] eqn:E; try (vm_compute in E; discriminate E).
  destruct (normalizers_agree Fixtures.media_message m 2
              ltac:(vm_compute; reflexivity) ltac:(vm_compute; reflexivity) E)
    as (p & Hp & Hs & _ & _ & _ & _ & Hu & _).
  exists p. split; [exact Hp |].
  vm_compute in E. injection E as <-. split; [exact Hs | exact Hu].
Defined.

(** Where the two normalizers part: a prefix in the middle of From is
    removed by [parse_incoming_webhook] only. *)
Example normalizers_differ_on_inner_prefix :
  (exists m, WebhookHandler.process_webhook MoreFixtures.inner_prefix
             = Ret (WebhookHandler.Success m)
             /\ WebhookHandler.sender_id m = "xwhatsapp:+1555")
  /\ (exists p, TwilioMore.parse_incoming_webhook MoreFixtures.inner_prefix = Ret p
                /\ TwilioMore.sender_id p = "x+1555").
Proof.
  split; eexists; (split; [vm_compute; reflexivity | reflexivity]).
Qed.

(** ** Outbound sender, continued *)

Section SenderMore.
Import TwilioService.

(** The media URL [send_text_message] forwards. *)
Lemma send_text_message_eq (v : Vendors) (self : TwilioWhatsAppClient)
    (recipient message_body : string) (media_urls : option (list string)) (st : State) :
  let from_number := "whatsapp:" +:+ twilio_whatsapp_number self in
  let to_number := normalize_recipient recipient in
  let media_url := match media_urls with
                   | Some (u :: _) => Some u
                   | _ => None
                   end in
  send_text_message v self recipient message_body media_urls st
  = (match messages_create v (log st) message_body from_number to_number media_url with
     | Ret message =>
         Ret {| success := true; message_sid := fst message; status := snd message;
                to := to_number; from_ := from_number |}
     | Raise (TwilioRestException code msg) =>
         Raise (TwilioMessageError ("Erro Twilio " +:+ pretty code +:+ ": " +:+ msg))
     | Raise e =>
         Raise (TwilioMessageError ("Erro ao enviar mensagem: " +:+ str_exn e))
     end,
     add_call (MessagesCreate message_body from_number to_number media_url) st).
Proof.
  unfold send_text_message. unfold_M. cbv zeta.
  destruct media_urls as [[| u rest] |];
    (destruct (messages_create v _ _ _ _ _) as [m | e]; [reflexivity |];
     destruct e; reflexivity).
Qed.

(** X9: [send_text_message] calls the vendor exactly once whatever happens,
    touches neither the registry nor anything else of the state, and can
    fail only by raising [TwilioMessageError]; the result it returns on
    success reports success, the normalized destination and the prefixed
    sender number. *)
Theorem send_text_message_effects (v : Vendors) (self : TwilioWhatsAppClient)
    (recipient message_body : string) (media_urls : option (list string)) (st : State) :
  (exists media_url,
     snd (send_text_message v self recipient message_body media_urls st)
     = add_call (MessagesCreate message_body
                   ("whatsapp:" +:+ twilio_whatsapp_number self)
                   (normalize_recipient recipient) media_url) st)
  /\ sessions (snd (send_text_message v self recipient message_body media_urls st))
     = sessions st
  /\ (forall e,
        fst (send_text_message v self recipient message_body media_urls st) = Raise e ->
        exists detail, e = TwilioMessageError detail)
  /\ (forall result,
        fst (send_text_message v self recipient message_body media_urls st) = Ret result ->
        success result = true
        /\ to result = normalize_recipient recipient
        /\ from_ result = "whatsapp:" +:+ twilio_whatsapp_number self).
Proof.
  pose proof (send_text_message_eq v self recipient message_body media_urls st) as H.
  cbv zeta in H. rewrite H. cbn [fst snd]. split; [eauto |]. split; [reflexivity |].
  split.
  - intros e. destruct (messages_create v _ _ _ _ _) as [m | e0]; [discriminate |].
    destruct e0; intros [= <-]; eauto.
  - intros result. destruct (messages_create v _ _ _ _ _) as [m | e0].
    + intros [= <-]. repeat split.
    + destruct e0; discriminate.
Qed.

(** X10: of a list of media URLs only the first is forwarded to the
    vendor: sending with a list behaves exactly as sending with its first
    element alone, and an empty list behaves exactly as no list. *)
Theorem send_text_message_first_media_only (v : Vendors) (self : TwilioWhatsAppClient)
    (recipient message_body : string) (st : State) :
  (forall u rest,
     send_text_message v self recipient message_body (Some (u :: rest)) st
     = send_text_message v self recipient message_body (Some [u]) st)
  /\ send_text_message v self recipient message_body (Some []) st
     = send_text_message v self recipient message_body None st
  /\ (forall u rest,
        log (snd (send_text_message v self recipient message_body (Some (u :: rest)) st))
        = (log st ++ [MessagesCreate message_body
                        ("whatsapp:" +:+ twilio_whatsapp_number self)
                        (normalize_recipient recipient) (Some u)])%list).
Proof.
  split; [| split]; intros; rewrite !send_text_message_eq; reflexivity.
Qed.


End SenderMore.


Section RoundTrip.
Import WebhookHandler TwilioService.

Lemma replace_digits (d : string) :
  Inv.all_digits d = true -> replace d "whatsapp:" "" = d.
Proof.
  unfold replace. induction d as [| c d IH]; [reflexivity |].
  cbn [Inv.all_digits]. intros H. apply andb_true_iff in H as [Hc Hd].
  cbn [replace_from String.prefix].
  destruct (ascii_dec "w" c) as [<- | _]; [discriminate Hc |].
  f_equal. apply IH. exact Hd.
Qed.

Lemma strip_whatsapp_plus (d : string) :
  strip_whatsapp ("whatsapp:+" +:+ d) = "+" +:+ replace d "whatsapp:" "".
Proof.
  unfold strip_whatsapp, startswith.
  change ("whatsapp:+" +:+ d) with ("whatsapp:" +:+ String "+" d).
  rewrite (prefix_app "whatsapp:" (String "+" d)).
  unfold replace.
  change ("whatsapp:" +:+ String "+" d)
    with (String "w" (String "h" (String "a" (String "t" (String "s" (String "a"
           (String "p" (String "p" (String ":" (String "+" d)))))))))).
  cbn [replace_from String.prefix String.length Nat.pred].
  reflexivity.
Qed.

Lemma strip_whatsapp_digits (digits : string) :
  Inv.all_digits digits = true ->
  strip_whatsapp ("whatsapp:+" +:+ digits) = "+" +:+ digits.
Proof.
  intros H. by rewrite strip_whatsapp_plus, (replace_digits digits H).
Qed.


End RoundTrip.


Section SendWhatsapp.
Import TwilioService.
Context (cfg : Config) (v : Vendors).

(** The constructor of the client in one equation. *)
Lemma TwilioWhatsAppClient_init_cases
    (account_sid auth_token number : option string) (st : State) :
  let sid := opt_or account_sid (TWILIO_ACCOUNT_SID cfg) in
  let token := opt_or auth_token (TWILIO_AUTH_TOKEN cfg) in
  let num := opt_or number (TWILIO_WHATSAPP_NUMBER cfg) in
  TwilioWhatsAppClient_init cfg v account_sid auth_token number st
  = if truthy_opt sid && truthy_opt token && truthy_opt num
    then
      (match twilio_rest_client v (log st) (default "" sid) (default "" token) with
       | Ret _ =>
           Ret {| TwilioService.account_sid := default "" sid;
                  TwilioService.auth_token := default "" token;
                  TwilioService.twilio_whatsapp_number := default "" num |}
       | Raise e =>
           Raise (TwilioMessageError
                    ("Erro ao inicializar cliente Twilio: " +:+ str_exn e))
       end,
       add_call (TwilioRestClient (default "" sid) (default "" token)) st)
    else
      (Raise (TwilioMessageError
                ("Credenciais Twilio incompletas. Verifique: "
                 +:+ "TWILIO_ACCOUNT_SID, TWILIO_AUTH_TOKEN, TWILIO_WHATSAPP_NUMBER")),
       st).
Proof.
  cbv zeta. unfold TwilioWhatsAppClient_init.
  destruct (truthy_opt _ && truthy_opt _ && truthy_opt _); cbn [negb];
    [| reflexivity].
  unfold_M. destruct (twilio_rest_client v _ _ _) as [[] | e]; reflexivity.
Qed.

(** [send_whatsapp_message] in one equation. *)
Lemma send_whatsapp_message_eq
    (recipient message_body : string) (media_urls : option (list string))
    (account_sid auth_token number : option string) (st : State) :
  let sid := default "" (opt_or account_sid (TWILIO_ACCOUNT_SID cfg)) in
  let token := default "" (opt_or auth_token (TWILIO_AUTH_TOKEN cfg)) in
  let from_number :=
    "whatsapp:" +:+ default "" (opt_or number (TWILIO_WHATSAPP_NUMBER cfg)) in
  let media_url := match media_urls with
                   | Some (u :: _) => Some u
                   | _ => None
                   end in
  let st1 := add_call (TwilioRestClient sid token) st in
  let st2 := add_call (MessagesCreate message_body from_number
                         (normalize_recipient recipient) media_url) st1 in
  TwilioMore.send_whatsapp_message cfg v recipient message_body media_urls
    account_sid auth_token number st
  = if truthy_opt (opt_or account_sid (TWILIO_ACCOUNT_SID cfg))
       && truthy_opt (opt_or auth_token (TWILIO_AUTH_TOKEN cfg))
       && truthy_opt (opt_or number (TWILIO_WHATSAPP_NUMBER cfg))
    then
      match twilio_rest_client v (log st) sid token with
      | Raise _ => (Ret false, st1)
      | Ret _ =>
          match messages_create v (log st1) message_body from_number
                  (normalize_recipient recipient) media_url with
          | Ret _ => (Ret true, st2)
          | Raise _ => (Ret false, st2)
          end
      end
    else (Ret false, st).
Proof.
  cbv zeta.
  pose proof (TwilioWhatsAppClient_init_cases account_sid auth_token number st) as Hi.
  cbv zeta in Hi.
  unfold TwilioMore.send_whatsapp_message, Vendor.catch.
  unfold Vendor.bind at 1. cbv beta. rewrite Hi. clear Hi.
  destruct (truthy_opt _ && truthy_opt _ && truthy_opt _); [| reflexivity].
  destruct (twilio_rest_client v _ _ _) as [[] | e]; [| reflexivity].
  unfold Vendor.bind. rewrite send_text_message_eq. cbv zeta.
  cbn [twilio_whatsapp_number].
  destruct (messages_create v _ _ _ _ _) as [message | e]; [reflexivity |].
  destruct e; reflexivity.
Qed.

(** X13: the helper [send_whatsapp_message] never raises: it returns [True]
    or [False], and leaves the registry alone.  With credentials that are
    incomplete after the fall-back to the configuration it returns [False]
    and calls no vendor; when it returns [True] the vendor built the client
    and accepted the message, and these are the only two vendor calls
    made. *)
Theorem send_whatsapp_message_outcomes
    (recipient message_body : string) (media_urls : option (list string))
    (account_sid auth_token number : option string) (st : State) :
  (exists sent st',
     TwilioMore.send_whatsapp_message cfg v recipient message_body media_urls
       account_sid auth_token number st = (Ret sent, st')
     /\ sessions st' = sessions st)
  /\ (truthy_opt (opt_or account_sid (TWILIO_ACCOUNT_SID cfg))
      && truthy_opt (opt_or auth_token (TWILIO_AUTH_TOKEN cfg))
      && truthy_opt (opt_or number (TWILIO_WHATSAPP_NUMBER cfg)) = false ->
      TwilioMore.send_whatsapp_message cfg v recipient message_body media_urls
        account_sid auth_token number st = (Ret false, st))
  /\ (forall st',
        TwilioMore.send_whatsapp_message cfg v recipient message_body media_urls
          account_sid auth_token number st = (Ret true, st') ->
        exists sid token from_number media_url message,
          twilio_rest_client v (log st) sid token = Ret tt
          /\ messages_create v (log st ++ [TwilioRestClient sid token])%list
               message_body from_number (normalize_recipient recipient) media_url
             = Ret message
          /\ log st'
             = (log st ++ [TwilioRestClient sid token;
                           MessagesCreate message_body from_number
                             (normalize_recipient recipient) media_url])%list).
Proof.
  pose proof (send_whatsapp_message_eq recipient message_body media_urls
                account_sid auth_token number st) as H.
  cbv zeta in H. rewrite H. clear H.
  destruct (truthy_opt _ && truthy_opt _ && truthy_opt _).
  2:{ split; [eauto |]. split; [reflexivity | discriminate]. }
  destruct (twilio_rest_client v _ _ _) as [[] | e] eqn:Ec.
  2:{ split; [eauto |]. split; discriminate. }
  cbn [log add_call].
  destruct (messages_create v _ _ _ _ _) as [message | e] eqn:Em.
  - split; [eauto |]. split; [discriminate |].
    intros st' [= <-]. do 5 eexists. split; [exact Ec |].
    split; [exact Em |]. cbn [log add_call]. by rewrite <- app_assoc.
  - split; [eauto |]. split; discriminate.
Qed.

End SendWhatsapp.

Lemma send_whatsapp_message_outcomes_witness :
  TwilioMore.send_whatsapp_message MoreFixtures.cfg_incomplete Fixtures.vendors_up
    "+15551234567" "hello" None None None None initial_state
  = (Ret false, initial_state)
  /\ TwilioMore.send_whatsapp_message MoreFixtures.cfg_incomplete Fixtures.vendors_up
       "+15551234567" "hello" None None (Some "token") None initial_state
     = (Ret true,
        add_call (MessagesCreate "hello" "whatsapp:+14155238886"
                    "whatsapp:+15551234567" None)
          (add_call (TwilioRestClient "AC1" "token") initial_state)).
Proof.
  split.
  - apply (proj1 (proj2 (send_whatsapp_message_outcomes MoreFixtures.cfg_incomplete
                           Fixtures.vendors_up "+15551234567" "hello" None
                           None None None initial_state))).
    reflexivity.
  - vm_compute. reflexivity.
Defined.

(** ** Session registry, continued *)

Section RegistryMore.
Import GeminiClient.
Context (cfg : Config) (v : Vendors).

(** The constructor of a session in one equation. *)
Lemma GeminiChatSession_init_cases (u : string) (i : option string) (st : State) :
  let key := GEMINI_API_KEY cfg in
  let st1 := add_call (GenaiClient key) (bump_oid st) in
  let st2 := match i with
             | None => add_call ReadPromptFile st1
             | Some _ => st1
             end in
  let instruction :=
    match i with
    | None => default default_system_instruction (read_prompt_file v (log st1))
    | Some x => x
    end in
  GeminiChatSession_init cfg v u i st
  = match genai_client v (log st) key with
    | Raise e => (Raise e, st1)
    | Ret _ =>
        (match chats_create v (log st2) (GEMINI_MODEL cfg) instruction with
         | Ret handle =>
             Ret {| oid := next_oid st; user_id := u; client_api_key := key;
                    chat := {| chat_model := GEMINI_MODEL cfg;
                               chat_system_instruction := instruction;
                               chat_handle := handle |} |}
         | Raise e => Raise e
         end,
         add_call (ChatsCreate (GEMINI_MODEL cfg) instruction) st2)
    end.
Proof.
  cbv zeta. unfold GeminiChatSession_init, load_prompt_template. unfold_M.
  cbn [log bump_oid add_call next_oid].
  destruct (genai_client v _ _) as [[] | e]; [| reflexivity].
  destruct i as [x |]; cbn [default from_option id log add_call];
    destruct (chats_create v _ _ _); reflexivity.
Qed.

(** X18: the instruction of a new session.  When an instruction is passed
    it is used as it is, even when empty, and the prompt file is not read;
    when none is passed the prompt file is read once, and its instruction is
    used if there is one, the hard-coded default otherwise.  The session
    carries the user id it was created for and the configured model. *)
Theorem new_session_instruction (u : string) (i : option string)
    (st st' : State) (s : GeminiChatSession) :
  GeminiChatSession_init cfg v u i st = (Ret s, st') ->
  user_id s = u
  /\ chat_model (chat s) = GEMINI_MODEL cfg
  /\ match i with
     | Some x =>
         chat_system_instruction (chat s) = x
         /\ log st' = (log st ++ [GenaiClient (GEMINI_API_KEY cfg);
                                  ChatsCreate (GEMINI_MODEL cfg) x])%list
     | None =>
         chat_system_instruction (chat s)
         = default default_system_instruction
             (read_prompt_file v (log st ++ [GenaiClient (GEMINI_API_KEY cfg)])%list)
         /\ log st' = (log st ++ [GenaiClient (GEMINI_API_KEY cfg); ReadPromptFile;
                                  ChatsCreate (GEMINI_MODEL cfg)
                                    (chat_system_instruction (chat s))])%list
     end.
Proof.
  pose proof (GeminiChatSession_init_cases u i st) as H. cbv zeta in H.
  rewrite H. clear H.
  destruct (genai_client v _ _) as [[] | e]; [| discriminate].
  destruct (chats_create v _ _ _) as [handle | e]; [| discriminate].
  intros [= <- <-]. cbn [user_id chat chat_model chat_system_instruction].
  split; [reflexivity |]. split; [reflexivity |].
  destruct i as [x |]; cbn [log add_call bump_oid]; rewrite <- ?app_assoc;
    split; reflexivity.
Qed.

(** What one registry operation does to the dictionary and to the
    identities. *)
Lemma run_op_effect (o : Op) (st : State) :
  (sessions (run_op cfg v o st) = sessions st
   /\ (next_oid st <= next_oid (run_op cfg v o st))%nat)
  \/ (exists u, sessions (run_op cfg v o st) = delete u (sessions st)
                /\ next_oid (run_op cfg v o st) = next_oid st)
  \/ (sessions (run_op cfg v o st) = ∅
      /\ next_oid (run_op cfg v o st) = next_oid st)
  \/ (exists u i s, o = OpGetOrCreate u i /\ sessions st !! u = None
                    /\ user_id s = u /\ oid s = next_oid st
                    /\ next_oid (run_op cfg v o st) = S (next_oid st)
                    /\ sessions (run_op cfg v o st) = <[u := s]> (sessions st)).
Proof.
  destruct o as [u i | u | u |]; cbn [run_op].
  - destruct (sessions st !! u) as [s |] eqn:E.
    + left. rewrite (get_or_create_session_present cfg v u i st s E). cbn.
      split; [done | lia].
    + rewrite (get_or_create_session_absent cfg v u i st E).
      pose proof (GeminiChatSession_init_cases u i st) as H. cbv zeta in H.
      rewrite H. clear H.
      destruct (genai_client v _ _) as [[] | e]; [| left; cbn; split; [done | lia]].
      destruct (chats_create v _ _ _) as [handle | e].
      * right. right. right.
        exists u, i,
          {| oid := next_oid st; user_id := u; client_api_key := GEMINI_API_KEY cfg;
             chat := {| chat_model := GEMINI_MODEL cfg;
                        chat_system_instruction :=
                          match i with
                          | None =>
                              default default_system_instruction
                                (read_prompt_file v
                                   (log (add_call (GenaiClient (GEMINI_API_KEY cfg))
                                           (bump_oid st))))
                          | Some x => x
                          end;
                        chat_handle := handle |} |}.
        split; [reflexivity |]. split; [exact E |].
        destruct i; cbn; repeat split; reflexivity.
      * left. destruct i; cbn; split; try done; lia.
  - left. cbn. split; [done | lia].
  - right. left. exists u. unfold delete_session. unfold_M.
    case_bool_decide; cbn; split; try done.
    symmetry. apply delete_id. by apply not_elem_of_dom.
  - right. right. left. cbn. done.
Qed.


(** X15: failure safety.  When [get_or_create_session] raises, the registry
    is exactly as before and the user id is still absent, so the next call
    for that id constructs again; the exception is the one a vendor call of
    the constructor raised (the [KeyError] of the final lookup never
    occurs). *)
Theorem get_or_create_session_failure (u : string) (i : option string)
    (st st' : State) (e : exn) :
  get_or_create_session cfg v u i st = (Raise e, st') ->
  sessions st' = sessions st
  /\ sessions st' !! u = None
  /\ GeminiChatSession_init cfg v u i st = (Raise e, st')
  /\ (genai_client v (log st) (GEMINI_API_KEY cfg) = Raise e
      \/ exists l instruction,
           chats_create v l (GEMINI_MODEL cfg) instruction = Raise e).
Proof.
  intros Hget. destruct (sessions st !! u) as [s |] eqn:E.
  { rewrite (get_or_create_session_present cfg v u i st s E) in Hget. discriminate. }
  rewrite (get_or_create_session_absent cfg v u i st E) in Hget.
  pose proof (GeminiChatSession_init_sessions cfg v u i st) as Hs.
  destruct (GeminiChatSession_init cfg v u i st) as [[s | e0] st0] eqn:Ei;
    [discriminate |].
  injection Hget as <- <-. cbn [snd] in Hs.
  split; [exact Hs |]. split; [by rewrite Hs |]. split; [reflexivity |].
  pose proof (GeminiChatSession_init_cases u i st) as H. cbv zeta in H.
  rewrite H in Ei. clear H.
  destruct (genai_client v _ _) as [[] | e1]; [| left; congruence].
  destruct (chats_create v _ _ _) as [h | e1] eqn:Ec; [discriminate |].
  right. injection Ei as <- _. eauto.
Qed.

Lemma run_op_oids (o : Op) (st : State) :
  Inv.oids_allocated st /\ Inv.oids_distinct st ->
  Inv.oids_allocated (run_op cfg v o st) /\ Inv.oids_distinct (run_op cfg v o st).
Proof.
  unfold Inv.oids_allocated, Inv.oids_distinct. intros [Ha Hd].
  destruct (run_op_effect o st)
    as [[Hs Hn] | [(u' & Hs & Hn) | [[Hs Hn] | (u' & i' & s0 & _ & Hnone & _ & Hoid & Hn & Hs)]]];
    rewrite Hs; clear Hs.
  - split; [| exact Hd]. intros u s H. specialize (Ha u s H). lia.
  - split.
    + intros u s H. apply lookup_delete_Some in H as [_ H]. rewrite Hn. eauto.
    + intros u1 u2 s1 s2 H1 H2. apply lookup_delete_Some in H1 as [_ H1].
      apply lookup_delete_Some in H2 as [_ H2]. eauto.
  - split.
    + intros u s H. by rewrite lookup_empty in H.
    + intros u1 u2 s1 s2 H1. by rewrite lookup_empty in H1.
  - split.
    + intros u s H. rewrite Hn.
      apply lookup_insert_Some in H as [[_ <-] | [_ H]]; [lia |].
      specialize (Ha u s H). lia.
    + intros u1 u2 s1 s2 H1 H2 Heq.
      apply lookup_insert_Some in H1 as [[<- <-] | [Hne1 H1]];
        apply lookup_insert_Some in H2 as [[<- <-] | [Hne2 H2]].
      * reflexivity.
      * specialize (Ha u2 s2 H2). lia.
      * specialize (Ha u1 s1 H1). lia.
      * eauto.
Qed.

Lemma run_ops_oids (ops : list Op) (st : State) :
  Inv.oids_allocated st /\ Inv.oids_distinct st ->
  Inv.oids_allocated (run_ops cfg v ops st) /\ Inv.oids_distinct (run_ops cfg v ops st).
Proof.
  revert st. induction ops as [| o ops IH]; intros st H; [exact H |].
  cbn [run_ops fold_left]. apply IH. by apply run_op_oids.
Qed.

Lemma initial_state_oids :
  Inv.oids_allocated initial_state /\ Inv.oids_distinct initial_state.
Proof.
  split.
  - intros u s H. cbn in H. by rewrite lookup_empty in H.
  - intros u1 u2 s1 s2 H. cbn in H. by rewrite lookup_empty in H.
Qed.

(** X16: whatever sequence of registry operations is run from the empty
    registry, no session object is stored under two user ids, and every
    stored object is older than the next identity to be given out. *)
Theorem sessions_are_never_shared (ops : list Op) :
  Inv.oids_distinct (run_ops cfg v ops initial_state)
  /\ Inv.oids_allocated (run_ops cfg v ops initial_state).
Proof.
  destruct (run_ops_oids ops initial_state initial_state_oids) as [Ha Hd].
  split; assumption.
Qed.

(** After a delete, what is stored for the user is newer than [bound]. *)
Lemma run_ops_newer (u : string) (bound : nat) (ops : list Op) (st : State) :
  (bound <= next_oid st)%nat ->
  (forall s, sessions st !! u = Some s -> (bound <= oid s)%nat) ->
  forall s, sessions (run_ops cfg v ops st) !! u = Some s -> (bound <= oid s)%nat.
Proof.
  revert st. induction ops as [| o ops IH]; intros st Hn Hu; [exact Hu |].
  cbn [run_ops fold_left]. apply IH.
  - destruct (run_op_effect o st)
      as [[_ H] | [(_ & _ & H) | [[_ H] | (_ & _ & _ & _ & _ & _ & _ & H & _)]]]; lia.
  - destruct (run_op_effect o st)
      as [[Hs _] | [(u' & Hs & _) | [[Hs _] | (u' & i' & s0 & _ & _ & _ & Hoid & _ & Hs)]]];
      rewrite Hs; intros s H.
    + eauto.
    + apply lookup_delete_Some in H as [_ H]. eauto.
    + by rewrite lookup_empty in H.
    + apply lookup_insert_Some in H as [[_ <-] | [_ H]]; [lia | eauto].
Qed.

(** X17: a session deleted is never handed out again.  In a registry
    reached from the empty one, once the session of a user is deleted,
    whatever session is later stored for that user, after any further
    operations, is a different object. *)
Theorem session_after_delete_is_new (before after : list Op) (u : string)
    (s s' : GeminiChatSession) :
  sessions (run_ops cfg v before initial_state) !! u = Some s ->
  sessions (run_ops cfg v after
              (snd (delete_session u (run_ops cfg v before initial_state)))) !! u
  = Some s' ->
  oid s' <> oid s.
Proof.
  intros Hs Hs'.
  destruct (run_ops_oids before initial_state initial_state_oids) as [Ha _].
  specialize (Ha u s Hs).
  set (st := run_ops cfg v before initial_state) in *.
  assert (Hdel : delete_session u st
                 = (Ret true, set_sessions (delete u (sessions st)) st)).
  { unfold delete_session. unfold_M.
    rewrite bool_decide_eq_true_2; [reflexivity |]. apply elem_of_dom. eauto. }
  rewrite Hdel in Hs'. cbn [snd] in Hs'.
  pose proof (run_ops_newer u (next_oid st) after
                (set_sessions (delete u (sessions st)) st)) as Hnew.
  cbn [next_oid sessions set_sessions] in Hnew.
  specialize (Hnew (le_n _)).
  assert (Hb : (next_oid st <= oid s')%nat).
  { apply Hnew; [| exact Hs']. intros s0 H. by rewrite lookup_delete_eq in H. }
  lia.
Qed.

End RegistryMore.

Lemma new_session_instruction_witness :
  exists s st',
    GeminiClient.GeminiChatSession_init Fixtures.cfg MoreFixtures.vendors_with_prompt
      "+15551234567" None initial_state = (Ret s, st')
    /\ chat_system_instruction (chat s) = "Template instruction."
    /\ user_id s = "+15551234567".
Proof.
  destruct (GeminiClient.GeminiChatSession_init Fixtures.cfg
              MoreFixtures.vendors_with_prompt "+15551234567" None initial_state)
    as [[s | e] st'] eqn:E; [| vm_compute in E; discriminate E].
  exists s, st'. split; [reflexivity |].
  destruct (new_session_instruction Fixtures.cfg MoreFixtures.vendors_with_prompt
              "+15551234567" None initial_state st' s E) as (Hu & _ & Hi & _).
  split; [| exact Hu]. rewrite Hi. reflexivity.
Defined.


Lemma get_or_create_session_failure_witness :
  exists e st',
    GeminiClient.get_or_create_session Fixtures.cfg MoreFixtures.vendors_no_chat
      "+15551234567" None initial_state = (Raise e, st')
    /\ sessions st' = sessions initial_state
    /\ sessions st' !! "+15551234567" = None.
Proof.
  destruct (GeminiClient.get_or_create_session Fixtures.cfg MoreFixtures.vendors_no_chat
              "+15551234567" None initial_state) as [[s | e] st'] eqn:E;
    [vm_compute in E; discriminate E |].
  exists e, st'. split; [reflexivity |].
  destruct (get_or_create_session_failure Fixtures.cfg MoreFixtures.vendors_no_chat
              "+15551234567" None initial_state st' e E) as (H1 & H2 & _).
  split; [exact H1 | exact H2].
Defined.

Lemma session_after_delete_is_new_witness :
  exists s',
    sessions
      (GeminiClient.run_ops Fixtures.cfg Fixtures.vendors_up
         [GeminiClient.OpGet "+15551234567";
          GeminiClient.OpGetOrCreate "+15551234567" (Some "Be brief.")]
         (snd (GeminiClient.delete_session "+15551234567"
                 (GeminiClient.run_ops Fixtures.cfg Fixtures.vendors_up
                    [GeminiClient.OpGetOrCreate "+15551234567" None] initial_state))))
    !! "+15551234567" = Some s'
    /\ oid s' <> oid Fixtures.first_session.
Proof.
  destruct (sessions
      (GeminiClient.run_ops Fixtures.cfg Fixtures.vendors_up
         [GeminiClient.OpGet "+15551234567";
          GeminiClient.OpGetOrCreate "+15551234567" (Some "Be brief.")]
         (snd (GeminiClient.delete_session "+15551234567"
                 (GeminiClient.run_ops Fixtures.cfg Fixtures.vendors_up
                    [GeminiClient.OpGetOrCreate "+15551234567" None] initial_state))))
    !! "+15551234567") as [s' |] eqn:E; [| vm_compute in E; discriminate E].
  exists s'. split; [reflexivity |].
  apply (session_after_delete_is_new Fixtures.cfg Fixtures.vendors_up
           [GeminiClient.OpGetOrCreate "+15551234567" None]
           [GeminiClient.OpGet "+15551234567";
            GeminiClient.OpGetOrCreate "+15551234567" (Some "Be brief.")]
           "+15551234567" Fixtures.first_session s').
  - vm_compute. reflexivity.
  - exact E.
Defined.

(** ** The POST handler, continued *)

Section HandleWebhookMore.
Import WebhookHandler.
Context (cfg : Config) (v : Vendors)
        (twilio_client : option TwilioService.TwilioWhatsAppClient).

(** The handler on a form that could not be read. *)
Lemma handle_webhook_unreadable (e : exn) (st : State) :
  App.handle_webhook cfg v twilio_client (Raise e) st
  = (Ret {| App.status := "error"; App.message := "Erro crítico: " +:+ str_exn e |}, st).
Proof. reflexivity. Qed.

(** The dispatch of a normalized message that is not a text message with a
    body. *)
Lemma dispatch_quiet (m : Message) (st : State) :
  (message_type m = "media"
   /\ App.dispatch cfg v twilio_client (Success m) st
      = (Ret {| App.status := "success"; App.message := "Mídia recebida" |}, st))
  \/ (message_type m <> "media" /\ message_type m <> "text"
      /\ App.dispatch cfg v twilio_client (Success m) st
         = (Ret {| App.status := "success";
                   App.message := "Tipo de mensagem não suportado" |}, st))
  \/ (message_type m = "text" /\ message_body m = ""
      /\ App.dispatch cfg v twilio_client (Success m) st
         = (Ret {| App.status := "success";
                   App.message := "Tipo de mensagem não suportado" |}, st))
  \/ (message_type m = "text" /\ message_body m <> ""
      /\ App.dispatch cfg v twilio_client (Success m)
         = App.handle_text cfg v twilio_client (Some (sender_id m)) (message_body m)).
Proof.
  unfold App.dispatch.
  cbn [status App.get_sender_id App.get_message_type App.get_message_body
       option_string_eqb].
  replace (String.eqb "success" "ignored") with false by reflexivity.
  replace (String.eqb "success" "error") with false by reflexivity.
  destruct (String.eqb_spec (message_type m) "text") as [Ht | Ht].
  - destruct (message_body m) as [| c b] eqn:Hb; cbn [truthy andb].
    + right. right. left. rewrite Ht. repeat split; reflexivity.
    + right. right. right. repeat split; [exact Ht | discriminate].
  - cbn [andb].
    destruct (String.eqb_spec (message_type m) "media") as [Hm | Hm].
    + left. split; [exact Hm | reflexivity].
    + right. left. repeat split; assumption.
Qed.

(** X20: only a text message with a body makes the handler act.  A
    delivery normalized as media is acknowledged (Mídia recebida) even when
    it has a text body, a text message with an empty body is answered as an
    unsupported type, and a form that cannot be read is reported as a
    critical error; in the three cases the state is exactly as before: no
    session, no vendor call. *)
Theorem quiet_deliveries (data : gmap string string) (m : Message) (st : State) :
  process_webhook data = Ret (Success m) ->
  (message_type m = "media" ->
     App.handle_webhook cfg v twilio_client (Ret data) st
     = (Ret {| App.status := "success"; App.message := "Mídia recebida" |}, st))
  /\ (message_type m = "text" -> message_body m = "" ->
      App.handle_webhook cfg v twilio_client (Ret data) st
      = (Ret {| App.status := "success";
                App.message := "Tipo de mensagem não suportado" |}, st))
  /\ (forall e,
        App.handle_webhook cfg v twilio_client (Raise e) st
        = (Ret {| App.status := "error";
                  App.message := "Erro crítico: " +:+ str_exn e |}, st)).
Proof.
  intros Hp. rewrite (handle_webhook_dispatch _ _ _ _ _ _ Hp).
  split; [| split].
  - intros Ht. apply catch_all_Ret.
    destruct (dispatch_quiet m st) as [[_ H] | [(H & _) | [(H & _) | (H & _)]]];
      [exact H | congruence ..].
  - intros Ht Hb. apply catch_all_Ret.
    destruct (dispatch_quiet m st)
      as [[H _] | [(_ & H & _) | [(_ & _ & H) | (_ & H & _)]]];
      [rewrite Ht in H; discriminate | congruence | exact H | congruence].
  - intros e. reflexivity.
Qed.

(** The vendor calls the registry makes are never sends. *)
Lemma get_or_create_session_log (u : string) (i : option string) (st : State) :
  exists calls,
    log (snd (GeminiClient.get_or_create_session cfg v u i st)) = (log st ++ calls)%list
    /\ existsb Inv.is_send calls = false.
Proof.
  destruct (sessions st !! u) as [s |] eqn:E.
  - rewrite (get_or_create_session_present cfg v u i st s E).
    exists []. split; [by rewrite app_nil_r | reflexivity].
  - rewrite (get_or_create_session_absent cfg v u i st E).
    pose proof (GeminiChatSession_init_cases cfg v u i st) as H. cbv zeta in H.
    rewrite H. clear H.
    destruct (genai_client v _ _) as [[] | e].
    + destruct (chats_create v _ _ _) as [h | e]; destruct i;
        cbn [snd log add_call bump_oid set_sessions]; rewrite <- ?app_assoc;
        eexists; (split; [reflexivity | reflexivity]).
    + cbn [snd log add_call bump_oid]. eexists. split; reflexivity.
Qed.

(** The text branch in one equation. *)
Lemma handle_text_eq (sender message_body : string) (st : State) :
  truthy sender = true ->
  App.handle_text cfg v twilio_client (Some sender) message_body st
  = match GeminiClient.get_or_create_session cfg v sender None st with
    | (Raise e, st1) => (Raise e, st1)
    | (Ret session, st1) =>
        let h := chat_handle (chat session) in
        let reply := match chat_send_message v (log st1) h message_body with
                     | Ret text => if truthy_opt text then default "" text else ""
                     | Raise _ => App.apology
                     end in
        let st2 := add_call (ChatSendMessage h message_body) st1 in
        match twilio_client with
        | None =>
            (Ret {| App.status := "warning";
                    App.message := "Twilio não disponível" |}, st2)
        | Some client =>
            let from_number :=
              "whatsapp:" +:+ TwilioService.twilio_whatsapp_number client in
            let to_number := TwilioService.normalize_recipient sender in
            (match messages_create v (log st2) reply from_number to_number None with
             | Ret _ =>
                 Ret {| App.status := "success";
                        App.message := "Mensagem processada" |}
             | Raise (TwilioRestException code msg) =>
                 Ret {| App.status := "error";
                        App.message := "Falha ao enviar: Erro Twilio "
                                       +:+ pretty code +:+ ": " +:+ msg |}
             | Raise e =>
                 Ret {| App.status := "error";
                        App.message := "Falha ao enviar: Erro ao enviar mensagem: "
                                       +:+ str_exn e |}
             end,
             add_call (MessagesCreate reply from_number to_number None) st2)
        end
    end.
Proof.
  intros Hs.
  destruct (GeminiClient.get_or_create_session cfg v sender None st)
    as [[session | e] st1] eqn:Hget.
  - cbv zeta.
    rewrite (handle_text_after_reply cfg v twilio_client sender message_body st st1
               session _ _ Hs Hget (reply_cases v session message_body st1)).
    destruct twilio_client as [client |]; [| reflexivity].
    rewrite send_text_message_eq. cbv zeta.
    destruct (messages_create v _ _ _ _ _) as [m | e]; [reflexivity |].
    destruct e; reflexivity.
  - unfold App.handle_text, App.str_opt. cbn [truthy_opt default from_option id].
    rewrite Hs. cbn [negb]. unfold Vendor.bind at 1. cbv beta. rewrite Hget.
    reflexivity.
Qed.

Lemma get_or_create_session_sessions (u : string) (i : option string) (st : State) :
  sessions (snd (GeminiClient.get_or_create_session cfg v u i st)) = sessions st
  \/ exists s, sessions st !! u = None
               /\ sessions (snd (GeminiClient.get_or_create_session cfg v u i st))
                  = <[u := s]> (sessions st).
Proof.
  destruct (sessions st !! u) as [s |] eqn:E.
  - left. by rewrite (get_or_create_session_present cfg v u i st s E).
  - rewrite (get_or_create_session_absent cfg v u i st E).
    pose proof (GeminiChatSession_init_sessions cfg v u i st) as Hs.
    destruct (GeminiClient.GeminiChatSession_init cfg v u i st) as [[s | e] st0];
      cbn [snd] in *.
    + right. exists s. split; [reflexivity |]. cbn. by rewrite Hs.
    + left. exact Hs.
Qed.

Lemma no_send_filter (calls : list VendorCall) :
  existsb Inv.is_send calls = false -> List.filter Inv.is_send calls = [].
Proof.
  induction calls as [| c calls IH]; [reflexivity |].
  cbn. intros H. apply orb_false_iff in H as [Hc Hr].
  rewrite Hc. by apply IH.
Qed.

(** What a delivery does to the state. *)
Lemma handle_webhook_effect (form : res (gmap string string)) (st : State) :
  (sessions (snd (App.handle_webhook cfg v twilio_client form st)) = sessions st
   \/ exists u s,
        sessions st !! u = None
        /\ sessions (snd (App.handle_webhook cfg v twilio_client form st))
           = <[u := s]> (sessions st))
  /\ exists calls,
       log (snd (App.handle_webhook cfg v twilio_client form st))
       = (log st ++ calls)%list
       /\ (length (List.filter Inv.is_send calls) <= 1)%nat.
Proof.
  assert (Hsame : forall r,
            App.handle_webhook cfg v twilio_client form st = (r, st) ->
            (sessions (snd (App.handle_webhook cfg v twilio_client form st)) = sessions st
             \/ exists u s, sessions st !! u = None
                            /\ sessions (snd (App.handle_webhook cfg v twilio_client form st))
                               = <[u := s]> (sessions st))
            /\ exists calls,
                 log (snd (App.handle_webhook cfg v twilio_client form st))
                 = (log st ++ calls)%list
                 /\ (length (List.filter Inv.is_send calls) <= 1)%nat).
  { intros r ->. split; [left; reflexivity |].
    exists []. split; [by rewrite app_nil_r | cbn; lia]. }
  destruct form as [data | e]; [| eapply Hsame; reflexivity].
  destruct (process_webhook_cases data) as [_ [[_ Hp] | [_ (m & Hp & _)]]].
  { eapply Hsame. rewrite (handle_webhook_dispatch _ _ _ _ _ _ Hp). reflexivity. }
  destruct (dispatch_quiet m st)
    as [[_ H] | [(_ & _ & H) | [(_ & _ & H) | (Ht & Hb & H)]]];
    try (eapply Hsame; rewrite (handle_webhook_dispatch _ _ _ _ _ _ Hp);
         apply catch_all_Ret; exact H).
  clear Hsame.
  destruct (dispatch_text cfg v twilio_client data m Hp Ht Hb) as [Hs _].
  rewrite (handle_webhook_dispatch _ _ _ _ _ _ Hp), H. unfold catch.
  rewrite (handle_text_eq _ _ _ Hs).
  pose proof (get_or_create_session_log (sender_id m) None st) as (calls & Hlog & Hns).
  apply no_send_filter in Hns.
  assert (Hsess :
    sessions (snd (GeminiClient.get_or_create_session cfg v (sender_id m) None st))
    = sessions st
    \/ exists u s, sessions st !! u = None
         /\ sessions (snd (GeminiClient.get_or_create_session cfg v (sender_id m) None st))
            = <[u := s]> (sessions st)).
  { destruct (get_or_create_session_sessions (sender_id m) None st) as [H0 | (s & H0)];
      [left; exact H0 | right; eauto]. }
  destruct (GeminiClient.get_or_create_session cfg v (sender_id m) None st)
    as [[session | e] st1]; cbn [snd] in *.
  - cbv zeta. destruct twilio_client as [client |].
    + split.
      * destruct (messages_create v _ _ _ _ _) as [x | e]; [| destruct e];
          cbn [snd sessions add_call]; exact Hsess.
      * eexists (calls ++ [ChatSendMessage _ _; MessagesCreate _ _ _ _])%list.
        split.
        -- destruct (messages_create v _ _ _ _ _) as [x | e]; [| destruct e];
             cbn [snd log add_call]; rewrite Hlog, <- !app_assoc; reflexivity.
        -- rewrite List.filter_app, Hns. cbn. lia.
    + split; [exact Hsess |].
      exists (calls ++ [ChatSendMessage (chat_handle (chat session)) (message_body m)])%list.
      cbn [snd log add_call]. rewrite Hlog, <- app_assoc. split; [reflexivity |].
      rewrite List.filter_app, Hns. cbn. lia.
  - cbn [select_handler isinstance_any existsb isinstance]. cbn [snd ret].
    split; [exact Hsess |]. exists calls. split; [exact Hlog |].
    rewrite Hns. cbn. lia.
Qed.

Lemma get_or_create_session_raise (u : string) (i : option string)
    (st st1 : State) (e : exn) :
  GeminiClient.get_or_create_session cfg v u i st = (Raise e, st1) ->
  sessions st1 = sessions st.
Proof.
  intros H. destruct (get_or_create_session_sessions u i st) as [Hs | (s & Hn & _)];
    [by rewrite H in Hs |].
  rewrite (get_or_create_session_absent cfg v u i st Hn) in H.
  pose proof (GeminiChatSession_init_sessions cfg v u i st) as Hs.
  destruct (GeminiClient.GeminiChatSession_init cfg v u i st) as [[s0 | e0] st0];
    [discriminate |].
  injection H as _ <-. exact Hs.
Qed.

(** X19: what one delivery can do.  Whatever the form, the vendors and the
    state, the POST handler keeps every session that was stored, adds at
    most one (so the count [/health] reports never decreases and grows by
    at most one), only appends to the vendor calls, and sends at most one
    message. *)
Theorem handle_webhook_frame (form : res (gmap string string)) (st : State) :
  (forall u s,
     sessions st !! u = Some s ->
     sessions (snd (App.handle_webhook cfg v twilio_client form st)) !! u = Some s)
  /\ (Monitoring.active_sessions (Monitoring.health_check st)
      <= Monitoring.active_sessions
           (Monitoring.health_check (snd (App.handle_webhook cfg v twilio_client form st)))
      <= S (Monitoring.active_sessions (Monitoring.health_check st)))%nat
  /\ exists calls,
       log (snd (App.handle_webhook cfg v twilio_client form st))
       = (log st ++ calls)%list
       /\ (length (List.filter Inv.is_send calls) <= 1)%nat.
Proof.
  destruct (handle_webhook_effect form st) as [Hs Hl].
  split; [| split; [| exact Hl]].
  - intros u s H. destruct Hs as [-> | (u' & s' & Hn & ->)]; [exact H |].
    rewrite lookup_insert_ne; [exact H |]. intros ->. congruence.
  - cbn [Monitoring.health_check Monitoring.active_sessions].
    destruct Hs as [-> | (u' & s' & Hn & ->)]; [lia |].
    rewrite (map_size_insert_None _ _ _ Hn). lia.
Qed.

(** X21: when the session of the sender cannot be constructed, the handler
    reports a critical error carrying the message of the exception, the
    registry is as before, and no message is sent. *)
Theorem session_failure_reported (data : gmap string string) (m : Message)
    (st st1 : State) (e : exn) :
  process_webhook data = Ret (Success m) ->
  message_type m = "text" -> message_body m <> "" ->
  GeminiClient.get_or_create_session cfg v (sender_id m) None st = (Raise e, st1) ->
  App.handle_webhook cfg v twilio_client (Ret data) st
  = (Ret {| App.status := "error"; App.message := "Erro crítico: " +:+ str_exn e |}, st1)
  /\ sessions st1 = sessions st
  /\ exists calls, log st1 = (log st ++ calls)%list
                   /\ existsb Inv.is_send calls = false.
Proof.
  intros Hp Ht Hb Hget.
  destruct (dispatch_text cfg v twilio_client data m Hp Ht Hb) as [Hs Hd].
  split; [| split].
  - rewrite (handle_webhook_dispatch _ _ _ _ _ _ Hp), Hd. unfold catch.
    rewrite (handle_text_eq _ _ _ Hs), Hget. reflexivity.
  - eapply get_or_create_session_raise; eauto.
  - pose proof (get_or_create_session_log (sender_id m) None st) as H.
    rewrite Hget in H. exact H.
Qed.

(** X22: the happy path, end to end.  For a text delivery with a body from
    whatsapp:+<digits>, with the Twilio client available, the session there
    and the model answering a non-empty text, the handler makes one call to
    the model with the body and one send whose body is the model's text and
    whose destination is the From address of the delivery, and answers
    success. *)
Theorem reply_reaches_sender (data : gmap string string) (m : Message)
    (digits text : string) (client : TwilioService.TwilioWhatsAppClient)
    (session : GeminiChatSession) (st st1 : State) (sent : string * string) :
  process_webhook data = Ret (Success m) ->
  message_type m = "text" -> message_body m <> "" ->
  data !! "From" = Some ("whatsapp:+" +:+ digits) ->
  Inv.all_digits digits = true ->
  twilio_client = Some client ->
  GeminiClient.get_or_create_session cfg v (sender_id m) None st = (Ret session, st1) ->
  chat_send_message v (log st1) (chat_handle (chat session)) (message_body m)
  = Ret (Some text) ->
  text <> "" ->
  messages_create v
    (log st1 ++ [ChatSendMessage (chat_handle (chat session)) (message_body m)])%list
    text ("whatsapp:" +:+ TwilioService.twilio_whatsapp_number client)
    ("whatsapp:+" +:+ digits) None = Ret sent ->
  App.handle_webhook cfg v twilio_client (Ret data) st
  = (Ret {| App.status := "success"; App.message := "Mensagem processada" |},
     add_call
       (MessagesCreate text
          ("whatsapp:" +:+ TwilioService.twilio_whatsapp_number client)
          ("whatsapp:+" +:+ digits) None)
       (add_call (ChatSendMessage (chat_handle (chat session)) (message_body m)) st1)).
Proof.
  intros Hp Ht Hb Hfrom Hdig Hc Hget Hchat Htext Hsend.
  destruct (dispatch_text cfg v twilio_client data m Hp Ht Hb) as [Hs Hd].
  rewrite (handle_webhook_dispatch _ _ _ _ _ _ Hp), Hd. unfold catch.
  rewrite (handle_text_eq _ _ _ Hs), Hget, Hc. cbv zeta. rewrite Hchat.
  assert (Hsender : sender_id m = "+" +:+ digits).
  { apply process_webhook_success in Hp as [_ ->]. cbn [sender_id].
    rewrite Hfrom. cbn [default from_option id].
    apply (strip_whatsapp_digits digits Hdig). }
  assert (Hto : TwilioService.normalize_recipient (sender_id m) = "whatsapp:+" +:+ digits).
  { rewrite Hsender. destruct digits; reflexivity. }
  rewrite Hto. destruct text as [| c text]; [congruence |].
  cbn [truthy_opt truthy default from_option id log add_call].
  cbn [log add_call] in Hsend. rewrite Hsend. reflexivity.
Qed.

End HandleWebhookMore.

Lemma quiet_deliveries_witness :
  App.handle_webhook Fixtures.cfg Fixtures.vendors_up (Some Fixtures.twilio_client)
    (Ret MoreFixtures.empty_body) Fixtures.state_after_first
  = (Ret {| App.status := "success";
            App.message := "Tipo de mensagem não suportado" |},
     Fixtures.state_after_first).
Proof.
  destruct (WebhookHandler.process_webhook MoreFixtures.empty_body)
    as [[t | d | m] | e] eqn:E; try (vm_compute in E; discriminate E).
  apply (proj1 (proj2 (quiet_deliveries Fixtures.cfg Fixtures.vendors_up
                         (Some Fixtures.twilio_client) MoreFixtures.empty_body m
                         Fixtures.state_after_first E)));
    vm_compute in E; injection E as <-; reflexivity.
Defined.

Lemma session_failure_reported_witness :
  exists e st1,
    App.handle_webhook Fixtures.cfg MoreFixtures.vendors_no_chat
      (Some Fixtures.twilio_client) (Ret Fixtures.text_message) initial_state
    = (Ret {| App.status := "error"; App.message := "Erro crítico: " +:+ str_exn e |},
       st1)
    /\ sessions st1 = sessions initial_state.
Proof.
  destruct (GeminiClient.get_or_create_session Fixtures.cfg MoreFixtures.vendors_no_chat
              "+15551234567" None initial_state) as [[s | e] st1] eqn:E;
    [vm_compute in E; discriminate E |].
  exists e, st1.
  destruct (session_failure_reported Fixtures.cfg MoreFixtures.vendors_no_chat
              (Some Fixtures.twilio_client) Fixtures.text_message
              Fixtures.text_message_normalized initial_state st1 e
              ltac:(vm_compute; reflexivity) eq_refl ltac:(discriminate) E)
    as (H1 & H2 & _).
  split; [exact H1 | exact H2].
Defined.

Lemma reply_reaches_sender_witness :
  App.handle_webhook Fixtures.cfg Fixtures.vendors_up (Some Fixtures.twilio_client)
    (Ret Fixtures.text_message) initial_state
  = (Ret {| App.status := "success"; App.message := "Mensagem processada" |},
     add_call
       (MessagesCreate "re: hello" "whatsapp:+14155238886" "whatsapp:+15551234567" None)
       (add_call (ChatSendMessage 2 "hello") Fixtures.state_after_first)).
Proof.
  apply (reply_reaches_sender Fixtures.cfg Fixtures.vendors_up
           (Some Fixtures.twilio_client) Fixtures.text_message
           Fixtures.text_message_normalized "15551234567" "re: hello"
           Fixtures.twilio_client Fixtures.first_session initial_state
           Fixtures.state_after_first ("SM900", "queued")).
  - vm_compute. reflexivity.
  - reflexivity.
  - discriminate.
  - vm_compute. reflexivity.
  - reflexivity.
  - reflexivity.
  - vm_compute. reflexivity.
  - reflexivity.
  - discriminate.
  - reflexivity.
Defined.
